(** * Antibot: a shallow embedding of pyrobud/modules/antibot.py

    The module decides whether a message or a newly joined user of a chat
    group is a spambot.  Its persistent state lives in a key-value store
    with two prefixed views ([groups.] and [users.]); the handlers are
    asynchronous Python methods that read and write that store, call the
    Telegram client and may raise.

    The embedding keeps that shape: the store is a finite map from keys to
    stored values, the handlers are computations in a state-and-exception
    monad over a [world] (store, trace of store writes, log, emitted
    moderation actions), and the remote lookups are fields of a [client]
    record that the handlers receive. *)

From Stdlib Require Import ZArith String Ascii List Bool Lia.
From stdpp Require Import base option gmap strings list fin_maps pretty.

Local Open Scope string_scope.
Local Open Scope Z_scope.

(** ** Python strings

    Text is modelled as [string] (a sequence of 8-bit characters); the
    case mapping and the alphabets below are the ASCII ones, which is what
    the keyword lists, the username alphabets and the store keys use. *)

Module PyStr.

(** [len(s)] *)
Definition len (s : string) : Z := Z.of_nat (String.length s).

(** [s.startswith(p)] *)
Fixpoint startswith (s p : string) : bool :=
  match p, s with
  | EmptyString, _ => true
  | String _ _, EmptyString => false
  | String a p', String b s' => if Ascii.eqb a b then startswith s' p' else false
  end.

(** [s.endswith(suf)]: some tail of [s] is [suf]. *)
Fixpoint endswith (s suf : string) : bool :=
  if String.eqb s suf then true
  else match s with
       | EmptyString => false
       | String _ s' => endswith s' suf
       end.

(** [needle in hay] on strings: substring test. *)
Fixpoint contains (hay needle : string) : bool :=
  if startswith hay needle then true
  else match hay with
       | EmptyString => false
       | String _ hay' => contains hay' needle
       end.

(** [c.lower()] for one character (ASCII case mapping). *)
Definition lower_ascii (c : ascii) : ascii :=
  let n := N_of_ascii c in
  if ((65 <=? n) && (n <=? 90))%N then ascii_of_N (n + 32) else c.

(** [s.lower()] *)
Fixpoint lower (s : string) : string :=
  match s with
  | EmptyString => EmptyString
  | String c s' => String (lower_ascii c) (lower s')
  end.

(** [s[n:]] for a non-negative [n]. *)
Fixpoint drop (n : nat) (s : string) : string :=
  match n, s with
  | O, _ => s
  | S _, EmptyString => EmptyString
  | S n', String _ s' => drop n' s'
  end.

(** the characters of [s], for [for c in s] *)
Fixpoint chars (s : string) : list ascii :=
  match s with
  | EmptyString => []
  | String c s' => c :: chars s'
  end.

(** [string.ascii_uppercase] and [string.ascii_lowercase] *)
Definition ascii_uppercase : string := "ABCDEFGHIJKLMNOPQRSTUVWXYZ".
Definition ascii_lowercase : string := "abcdefghijklmnopqrstuvwxyz".

(** [c in alphabet] for a single character [c]: the one-character
    string [c] is a substring of [alphabet]. *)
Definition char_in (c : ascii) (alphabet : string) : bool :=
  contains alphabet (String c EmptyString).

(** [str(n)] for an integer, as an f-string prints it. *)
Definition of_int (n : Z) : string := pretty n.

(** truthiness of a string: non-empty *)
Definition truthy (s : string) : bool :=
  match s with EmptyString => false | String _ _ => true end.

(** [s.replace(old, new)] for a non-empty [old]: every occurrence of
    [old], found from left to right without overlap, becomes [new].
    [skip] counts the characters of a found occurrence still to pass. *)
Fixpoint replace_from (skip : nat) (s old new : string) : string :=
  match s with
  | EmptyString => EmptyString
  | String ch s' =>
      match skip with
      | S k => replace_from k s' old new
      | O =>
          if startswith s old
          then new +:+ replace_from (String.length old - 1) s' old new
          else String ch (replace_from 0 s' old new)
      end
  end.

(** [s.replace("", new)]: [new] before every character and at the end *)
Fixpoint intersperse (s new : string) : string :=
  new +:+ match s with
          | EmptyString => EmptyString
          | String ch s' => String ch (intersperse s' new)
          end.

(** [s.replace(old, new)] *)
Definition replace (s old new : string) : string :=
  match old with
  | EmptyString => intersperse s new
  | String _ _ => replace_from 0 s old new
  end.

End PyStr.

(** ** Stored values

    The store keeps serialised Python values; the module stores booleans
    and integers.  [VNone] is Python's [None], what [get] returns for an
    absent key when no default is given. *)

Inductive value : Type :=
  | VNone
  | VBool (b : bool)
  | VInt (n : Z)
  | VStr (s : string).

(** [bool(v)] *)
Definition truthy (v : value) : bool :=
  match v with
  | VNone => false
  | VBool b => b
  | VInt n => negb (Z.eqb n 0)
  | VStr s => PyStr.truthy s
  end.

(** The number a value compares as in [x <= v] or [x > v]; [None] and
    strings do not compare with numbers (Python raises [TypeError]). *)
Definition as_number (v : value) : option Z :=
  match v with
  | VBool b => Some (if b then 1 else 0)
  | VInt n => Some n
  | VNone | VStr _ => None
  end.

(** ** The state store *)

Module DB.

(** Modelled from the spec: the persistent key-value store class
    (pyrobud's asynchronous database wrapper), which section 6 describes
    as [get(key, default)], [put(key, value)], [delete(key)] and a
    prefix-scoped iteration that yields a finite sequence of
    [(key, value)] pairs, with [groups.] and [users.] two prefix
    sub-scopes of one root store.  A view is the root store seen through
    a key prefix; its keys are relative to the prefix. *)
Definition get (view : string) (key : string) (default : value)
    (s : gmap string value) : value :=
  match s !! (view +:+ key) with
  | Some v => v
  | None => default
  end.

Definition put (view : string) (key : string) (v : value)
    (s : gmap string value) : gmap string value :=
  <[view +:+ key := v]> s.

Definition delete (view : string) (key : string)
    (s : gmap string value) : gmap string value :=
  base.delete (view +:+ key) s.

(** [view.iterator(prefix=p)]: the pairs of the view whose relative key
    starts with [p], as of the moment the iteration starts. *)
Definition iterator (view : string) (p : string)
    (s : gmap string value) : list (string * value) :=
  omap (λ kv : string * value,
          if PyStr.startswith kv.1 (view +:+ p)
          then Some (PyStr.drop (String.length view) kv.1, kv.2)
          else None)
       (map_to_list s).

End DB.

(** the three views the module opens in [on_load] *)
Definition db : string := "".
Definition group_db : string := "groups.".
Definition user_db : string := "users.".

(** ** Effects: exceptions, store writes, log, remote calls *)

Inductive exn : Type :=
  | TypeError
  | AttributeError
  | RPCError.

Inductive outcome (A : Type) : Type :=
  | Returns (a : A)
  | Raises (e : exn).
Arguments Returns {A} a.
Arguments Raises {A} e.

(** a write to the root store, under its full key *)
Inductive db_op : Type :=
  | Put (key : string) (v : value)
  | Delete (key : string).

Inductive log_level : Type := Info | Warn.

(** the calls [take_action] makes on the client and on the event *)
Inductive remote_call : Type :=
  | Sleep (seconds : Z)
  | DeleteUserHistoryRequest (chat user : Z)
  | KickParticipant (chat user : Z)
  | Reply (text : string) (schedule_seconds : Z)
  | DispatchEvent (name arg : string)
  | DeleteEvent.

Record world : Type := mkWorld {
  store : gmap string value;
  writes : list db_op;
  log : list (log_level * string);
  calls : list remote_call
}.

(** A handler: from a world to an outcome and the world it leaves.  A
    raised exception keeps the effects that happened before it. *)
Definition M (A : Type) : Type := world → outcome A * world.

Global Instance M_ret : MRet M := λ A a w, (Returns a, w).
Global Instance M_bind : MBind M := λ A B f m w,
  match m w with
  | (Returns a, w') => f a w'
  | (Raises e, w') => (Raises e, w')
  end.

Definition raise {A : Type} (e : exn) : M A := λ w, (Raises e, w).

Definition lift {A : Type} (o : outcome A) : M A := λ w, (o, w).

Definition db_get (view key : string) (default : value) : M value :=
  λ w, (Returns (DB.get view key default (store w)), w).

Definition db_put (view key : string) (v : value) : M unit :=
  λ w, (Returns tt,
        mkWorld (DB.put view key v (store w))
                (writes w ++ [Put (view +:+ key) v]) (log w) (calls w)).

Definition db_delete (view key : string) : M unit :=
  λ w, (Returns tt,
        mkWorld (DB.delete view key (store w))
                (writes w ++ [Delete (view +:+ key)]) (log w) (calls w)).

Definition db_iterator (view p : string) : M (list (string * value)) :=
  λ w, (Returns (DB.iterator view p (store w)), w).

Definition log_msg (lvl : log_level) (text : string) : M unit :=
  λ w, (Returns tt,
        mkWorld (store w) (writes w) (log w ++ [(lvl, text)]) (calls w)).

Definition call (c : remote_call) : M unit :=
  λ w, (Returns tt,
        mkWorld (store w) (writes w) (log w) (calls w ++ [c])).

(** [async for x in xs: body(x)] *)
Fixpoint for_each {A : Type} (xs : list A) (body : A → M unit) : M unit :=
  match xs with
  | [] => mret tt
  | x :: xs' => body x ;; for_each xs' body
  end.

(** a stored value used where a number is expected *)
Definition number (v : value) : M Z :=
  match as_number v with
  | Some n => mret n
  | None => raise TypeError
  end.

(** ** External data (read-only) *)

(** the entity classes of [telethon.types]; the first four are the ones
    listed in [suspicious_entities] *)
Inductive entity : Type :=
  | MessageEntityUrl
  | MessageEntityTextUrl
  | MessageEntityEmail
  | MessageEntityPhone
  | MessageEntityMention
  | MessageEntityHashtag
  | MessageEntityBotCommand
  | MessageEntityBold
  | MessageEntityItalic
  | MessageEntityCode
  | MessageEntityPre
  | MessageEntityUnknown.

Global Instance entity_eq_dec : EqDecision entity.
Proof. solve_decision. Defined.

(** The fields of a message (or event) the module reads.  Dates are Unix
    times in seconds; [forward] and [photo] record whether the forward
    header and the photo are present, which is how the code tests them. *)
Record message : Type := mkMessage {
  out : bool;
  date : option Z;
  forward : bool;
  photo : bool;
  raw_text : option string;
  entities : option (list entity);
  sender_id : Z;
  chat_id : Z;
  is_group : bool;
  is_channel : bool
}.

(** the participant record of a user in a channel *)
Inductive participant : Type :=
  | ChannelParticipantCreator
  | ChannelParticipantAdmin (joined : Z) (delete_messages ban_users : bool)
  | ChannelParticipant (joined : Z).

Record user : Type := mkUser {
  id : Z;
  username : option string;
  first_name : option string;
  last_name : option string;
  user_photo : bool
}.

(** a membership event *)
Record chat_action : Type := mkAction {
  user_left : bool;
  user_added : bool;
  user_joined : bool;
  action_user : user;
  action_chat_id : Z;
  action_is_group : bool
}.

(** the result of [nostril.nonsense]: a verdict, or [ValueError] *)
Inductive nostril_result : Type :=
  | Nonsense (b : bool)
  | ValueError.

(** What the handlers obtain from outside: the bot's own user id, the
    remote lookups (which may fail), the pronounceability test and the
    clock. *)
Record client : Type := mkClient {
  uid : Z;
  GetParticipantRequest : Z → Z → outcome participant;
  GetFullUserRequest : user → outcome (option string);
  chat_title : Z → string;
  nonsense : string → nostril_result;
  time_sec : Z
}.

(** ** The Antibot module *)

Module AntibotModule.

Definition suspicious_keywords : list string :=
  ["invest"; "profit"; "binance"; "binanse"; "bitcoin"; "testnet"; "bitmex"].

Definition suspicious_entities : list entity :=
  [MessageEntityUrl; MessageEntityTextUrl; MessageEntityEmail; MessageEntityPhone].

Definition suspicious_first_names : list string :=
  ["announcement"; "info"; "urgent"; "limited"; "holiday"; "verified";
   "solidified"; "recommended"; "temporarily"].

(** [x in xs] for a list *)
Definition list_in {A : Type} `{EqDecision A} (x : A) (xs : list A) : bool :=
  existsb (λ y, bool_decide (x = y)) xs.

Definition msg_has_suspicious_entity (msg : message) : bool :=
  match entities msg with
  | None | Some [] => false
  | Some es => existsb (λ e, list_in e suspicious_entities) es
  end.

Definition msg_has_suspicious_keyword (msg : message) : bool :=
  match raw_text msg with
  | None => false
  | Some text =>
      if negb (PyStr.truthy text) then false
      else
        let l_text := PyStr.lower text in
        existsb (λ kw, PyStr.contains l_text kw) suspicious_keywords
  end.

Definition msg_content_suspicious (msg : message) : bool :=
  msg_has_suspicious_entity msg || msg_has_suspicious_keyword msg.

(** The Python function returns the value of
    [(forwarded and msg.photo) or content]; its only use is as a
    condition, so the model returns its truth value. *)
Definition msg_data_is_suspicious (msg : message) : bool :=
  let incoming := negb (out msg) in
  let has_date := bool_decide (is_Some (date msg)) in
  let forwarded := forward msg in
  if incoming && has_date
  then (forwarded && photo msg) || msg_content_suspicious msg
  else false.

(** [participant.date]; the creator's record is never asked for it *)
Definition participant_date (p : participant) : M Z :=
  match p with
  | ChannelParticipantCreator => raise AttributeError
  | ChannelParticipantAdmin d _ _ => mret d
  | ChannelParticipant d => mret d
  end.

(** [msg.date] used as a [datetime] *)
Definition message_date (msg : message) : M Z :=
  match date msg with
  | Some d => mret d
  | None => raise TypeError
  end.

Definition has_spoken_key (user_id chat : Z) : string :=
  PyStr.of_int user_id +:+ ".has_spoken_in_" +:+ PyStr.of_int chat.

Definition msg_is_suspicious (c : client) (msg : message) : M bool :=
  if negb (msg_data_is_suspicious msg) then mret false
  else
    ptcp ← lift (GetParticipantRequest c (chat_id msg) (sender_id msg));
    match ptcp with
    | ChannelParticipantCreator => mret false
    | _ =>
        d ← message_date msg;
        pd ← participant_date ptcp;
        let delta := d - pd in
        threshold ← db_get db "threshold_time" (VInt 30) ≫= number;
        if delta <=? threshold then mret true
        else
          let join_time_sec := pd in
          enable_time ←
            db_get group_db (PyStr.of_int (chat_id msg) +:+ ".enable_time") VNone
            ≫= number;
          if join_time_sec >? enable_time then
            spoken ← db_get user_db (has_spoken_key (sender_id msg) (chat_id msg))
                            (VBool false);
            if negb (truthy spoken) then mret true else mret false
          else mret false
    end.

Definition profile_check_nonsense (c : client) (u : user) : M bool :=
  match username u with
  | Some (String c0 rest as name) =>
      if (10 <=? PyStr.len name) && (PyStr.len name <=? 12) then
        if negb (PyStr.char_in c0 PyStr.ascii_uppercase) then mret false
        else if negb (forallb (λ ch, PyStr.char_in ch PyStr.ascii_lowercase)
                              (PyStr.chars rest)) then mret false
        else if user_photo u then mret false
        else
          about ← lift (GetFullUserRequest c u);
          if from_option PyStr.truthy false about then mret false
          else
            match nonsense c name with
            | Nonsense b => if negb b then mret false else mret true
            | ValueError =>
                log_msg Warn
                  ("Nostril's nonsense word checker failed to process name '"
                   +:+ name +:+ "'");;
                mret true
            end
      else mret false
  | _ => mret false
  end.

Definition profile_check_crypto (u : user) : outcome bool :=
  match first_name u with
  | None => Raises AttributeError
  | Some fn =>
      if list_in (PyStr.lower fn) suspicious_first_names then Returns true
      else if PyStr.contains fn "t.me"
              || from_option (λ ln, PyStr.truthy ln && PyStr.contains ln "t.me")
                             false (last_name u)
      then Returns true
      else Returns false
  end.

Definition user_is_suspicious (c : client) (u : user) : M bool :=
  n ← profile_check_nonsense c u;
  if (n : bool) then mret true
  else
    cr ← lift (profile_check_crypto u);
    if (cr : bool) then mret true else mret false.

Definition dquote : string := String "034"%char EmptyString.

(** [take_action(event, user)]: the event supplies the chat. *)
Definition take_action (c : client) (chat : Z) (u : Z) : M unit :=
  call (Sleep 1);;
  call (DeleteUserHistoryRequest chat u);;
  call (KickParticipant chat u);;
  log_msg Info ("Kicked spambot with ID " +:+ PyStr.of_int u +:+ " in group "
                +:+ dquote +:+ chat_title c chat +:+ dquote);;
  call (Reply ("❯❯ **Kicked auto-detected spambot** with ID `"
               +:+ PyStr.of_int u +:+ "`") 10);;
  call (DispatchEvent "stat_event" "spambots_banned");;
  call DeleteEvent.

(** [is_enabled(event)], on the event's [is_group] and [chat_id] *)
Definition is_enabled (event_is_group : bool) (chat : Z) : M bool :=
  if event_is_group then
    v ← db_get group_db (PyStr.of_int chat +:+ ".enabled") (VBool false);
    mret (truthy v)
  else mret false.

Definition on_message (c : client) (msg : message) : M unit :=
  en ← is_enabled (is_group msg) (chat_id msg);
  if (en : bool) then
    s ← msg_is_suspicious c msg;
    if (s : bool) then take_action c (chat_id msg) (sender_id msg)
    else db_put user_db (has_spoken_key (sender_id msg) (chat_id msg)) (VBool true)
  else mret tt.

Definition clear_group (group_id : Z) : M unit :=
  ks ← db_iterator group_db (PyStr.of_int group_id +:+ ".");
  for_each ks (λ kv, db_delete group_db kv.1);;
  us ← db_iterator user_db "";
  for_each us (λ kv,
    if PyStr.endswith kv.1 (".has_spoken_in_" +:+ PyStr.of_int group_id)
    then db_delete user_db kv.1
    else mret tt).

Definition on_chat_action (c : client) (action : chat_action) : M unit :=
  let chat := action_chat_id action in
  let user_id := id (action_user action) in
  en ← (if user_left action then is_enabled (action_is_group action) chat
        else mret false);
  if (en : bool) then
    db_delete user_db (has_spoken_key user_id chat);;
    (if bool_decide (user_id = uid c) then
       log_msg Info ("Cleaning up settings for group " +:+ PyStr.of_int chat);;
       clear_group chat
     else mret tt)
  else if negb (user_added action) && negb (user_joined action) then mret tt
  else
    en' ← is_enabled (action_is_group action) chat;
    if negb (en' : bool) then mret tt
    else
      let u := action_user action in
      s ← user_is_suspicious c u;
      if (s : bool) then take_action c chat (id u) else mret tt.

(** The permission block of [cmd_antibot]: the message the command
    returns early with, if any. *)
Definition missing_permissions (ptcp : participant) : option string :=
  match ptcp with
  | ChannelParticipantCreator => None
  | ChannelParticipantAdmin _ delete_messages ban_users =>
      if negb delete_messages || negb ban_users then
        Some "__Antibot requires the **Delete Messages** and **Ban users** permissions.__"
      else None
  | ChannelParticipant _ =>
      Some "__I must be an admin with the **Delete Messages** and **Ban users** permissions for antibot to work.__"
  end.

Definition status_line (state : bool) : string :=
  let status := if state then "enabled" else "disabled" in
  "Antibot is now **" +:+ status +:+ "** in this group.".

Definition cmd_antibot (c : client) (msg : message) : M string :=
  if negb (is_group msg) then mret "__Antibot can only be used in groups.__"
  else if negb (is_channel msg) then
    mret "__Please convert this group to a supergroup in order to enable antibot.__"
  else
    en ← db_get group_db (PyStr.of_int (chat_id msg) +:+ ".enabled") (VBool false);
    let state := negb (truthy en) in
    if state then
      ptcp ← lift (GetParticipantRequest c (chat_id msg) (uid c));
      match missing_permissions ptcp with
      | Some refusal => mret refusal
      | None =>
          db_put group_db (PyStr.of_int (chat_id msg) +:+ ".enabled") (VBool true);;
          db_put group_db (PyStr.of_int (chat_id msg) +:+ ".enable_time")
                 (VInt (time_sec c));;
          mret (status_line state)
      end
    else
      clear_group (chat_id msg);;
      mret (status_line state).

(** [v is not None] *)
Definition is_not_none (v : value) : bool :=
  match v with
  | VNone => false
  | _ => true
  end.

(** [on_load]: the three views are [db], [group_db] and [user_db]; what
    remains is the migration of the legacy tracking start time. *)
Definition on_load : M unit :=
  fmsg_start_time ← db_get db "first_msg_start_time" VNone;
  if is_not_none fmsg_start_time then
    log_msg Info "Migrating message tracking start times to the new per-group format";;
    kvs ← db_iterator group_db "";
    for_each kvs (λ kv,
      if PyStr.endswith kv.1 ".enabled" && truthy kv.2
      then db_put group_db (PyStr.replace kv.1 ".enabled" ".enable_time") fmsg_start_time
      else mret tt);;
    db_delete db "first_msg_start_time"
  else mret tt.

End AntibotModule.

(** * Vocabulary of the specification *)

Import AntibotModule.

(** [suspiciousJoinWindowSeconds]: the scalar under the root key
    [threshold_time], 30 when the key is absent. *)
Definition suspiciousJoinWindowSeconds (s : gmap string value) : option Z :=
  match s !! "threshold_time" with
  | None => Some 30
  | Some v => as_number v
  end.

(** the join timestamp of a participant record; the creator's has none *)
Definition joinTimestamp (p : participant) : option Z :=
  match p with
  | ChannelParticipantCreator => None
  | ChannelParticipantAdmin d _ _ => Some d
  | ChannelParticipant d => Some d
  end.

(** the group's [enableTime], as a number *)
Definition enableTime (chat : Z) (s : gmap string value) : option Z :=
  s !! ("groups." +:+ PyStr.of_int chat +:+ ".enable_time") ≫= as_number.

(** the key of the [UserParticipationFlag] of (user, group) in the root
    store *)
Definition participation_flag (user_id chat : Z) : string :=
  "users." +:+ PyStr.of_int user_id +:+ ".has_spoken_in_" +:+ PyStr.of_int chat.

(** whether detection is enabled for a group in a store *)
Definition detection_enabled (chat : Z) (s : gmap string value) : bool :=
  match s !! ("groups." +:+ PyStr.of_int chat +:+ ".enabled") with
  | Some v => truthy v
  | None => false
  end.

(** "an uppercase A-Z letter", "a lowercase a-z letter" *)
Definition is_upper_AZ (ch : ascii) : bool :=
  ((65 <=? N_of_ascii ch) && (N_of_ascii ch <=? 90))%N.

Definition is_lower_az (ch : ascii) : bool :=
  ((97 <=? N_of_ascii ch) && (N_of_ascii ch <=? 122))%N.

(** the username gates: length in [10,12], first character uppercase
    A-Z, all remaining characters lowercase a-z *)
Definition length_in_window (name : string) : bool :=
  (10 <=? PyStr.len name) && (PyStr.len name <=? 12).

Definition first_is_upper (name : string) : bool :=
  match name with
  | EmptyString => false
  | String c0 _ => is_upper_AZ c0
  end.

Definition rest_is_lower (name : string) : bool :=
  match name with
  | EmptyString => true
  | String _ rest => forallb is_lower_az (PyStr.chars rest)
  end.

Definition username_gate (name : string) : bool :=
  length_in_window name && first_is_upper name && rest_is_lower name.

(** the extended profile has a bio *)
Definition has_bio (about : option string) : bool :=
  match about with
  | Some (String _ _) => true
  | _ => false
  end.

(** the rights the toggle-on requires: creator, or admin with both the
    delete-messages and the ban-users right *)
Definition has_required_rights (ptcp : participant) : bool :=
  match ptcp with
  | ChannelParticipantCreator => true
  | ChannelParticipantAdmin _ delete_messages ban_users => delete_messages && ban_users
  | ChannelParticipant _ => false
  end.

(** what running [take_action] for a user of a chat leaves behind: one
    log line and the remote calls, the store untouched *)
Definition after_take_action (c : client) (chat u : Z) (w : world) : world :=
  mkWorld (store w) (writes w)
    (log w ++ [(Info, "Kicked spambot with ID " +:+ PyStr.of_int u +:+ " in group "
                      +:+ dquote +:+ chat_title c chat +:+ dquote)])
    (calls w
     ++ [Sleep 1; DeleteUserHistoryRequest chat u; KickParticipant chat u;
         Reply ("❯❯ **Kicked auto-detected spambot** with ID `"
                +:+ PyStr.of_int u +:+ "`") 10;
         DispatchEvent "stat_event" "spambots_banned"; DeleteEvent]).

(** deleting a list of root keys, one after the other *)
Definition delete_keys (ks : list string) (s : gmap string value) : gmap string value :=
  foldl (λ acc k, base.delete k acc) s ks.

(** the root keys a conditional deletion loop over a view removes *)
Definition selected_keys (view : string) (cond : string → bool)
    (kvs : list (string * value)) : list string :=
  omap (λ kv : string * value, if cond kv.1 then Some (view +:+ kv.1) else None) kvs.

(** the root keys [clear_group] deletes in its first and second loop *)
Definition group_keys (g : Z) (s : gmap string value) : list string :=
  selected_keys group_db (λ _, true)
    (DB.iterator group_db (PyStr.of_int g +:+ ".") s).

Definition flag_keys (g : Z) (s : gmap string value) : list string :=
  selected_keys user_db
    (λ k, PyStr.endswith k (".has_spoken_in_" +:+ PyStr.of_int g))
    (DB.iterator user_db "" s).

(** the store [clear_group] leaves *)
Definition cleared (g : Z) (s : gmap string value) : gmap string value :=
  let s1 := delete_keys (group_keys g s) s in
  delete_keys (flag_keys g s1) s1.

(** No key of the group is left: nothing in the groups view under the
    prefix of the group (also as seen by a prefix iteration), and no
    participation flag of any user for the group. *)
Definition purged (g : Z) (s : gmap string value) : Prop :=
  (∀ k, PyStr.startswith k (PyStr.of_int g +:+ ".") = true →
        s !! ("groups." +:+ k) = None)
  ∧ DB.iterator group_db (PyStr.of_int g +:+ ".") s = []
  ∧ (∀ u : Z, s !! participation_flag u g = None).

(** ** Concrete scenarios *)

Module Scenario.

Definition fresh (s : gmap string value) : world := mkWorld s [] [] [].

(** a client for which every sender is a plain member who joined at
    time 110, no profile has a bio, and every name is judged nonsense *)
Definition member_client : client :=
  mkClient 999 (λ _ _, Returns (ChannelParticipant 110)) (λ _, Returns None)
           (λ _, "group") (λ _, Nonsense true) 5000.

(** a client for which every sender is the creator of the group *)
Definition creator_client : client :=
  mkClient 999 (λ _ _, Returns ChannelParticipantCreator) (λ _, Returns None)
           (λ _, "group") (λ _, Nonsense true) 5000.

(** group 5 has detection enabled since time 100 *)
Definition enabled_store : gmap string value :=
  <["groups.5.enabled" := VBool true]> (<["groups.5.enable_time" := VInt 100]> ∅).

(** group 5 has detection enabled since time 110 *)
Definition enabled_at_join_store : gmap string value :=
  <["groups.5.enabled" := VBool true]> (<["groups.5.enable_time" := VInt 110]> ∅).

(** an incoming message of user 7 in group 5 that mentions a keyword *)
Definition spam_at (t : Z) : message :=
  mkMessage false (Some t) false false (Some "Free BITCOIN profit") None 7 5 true true.

End Scenario.

Module ScenarioUsers.

(** ten letters, capitalised, no avatar, no first name *)
Definition nameless : user := mkUser 7 (Some "Xkqzpvbtab") None None false.

(** no username and no first name: a deleted account *)
Definition deleted_account : user := mkUser 8 None None None false.

(** a client whose pronounceability test cannot process any name *)
Definition failing_analyzer : client :=
  mkClient 999 (λ _ _, Returns (ChannelParticipant 110)) (λ _, Returns None)
           (λ _, "group") (λ _, ValueError) 5000.

(** a user joins group 5 *)
Definition join_of (u : user) : chat_action := mkAction false false true u 5 true.

End ScenarioUsers.

Module ScenarioDeparture.

(** the bot (user 999) leaves group 5 *)
Definition bot : user := mkUser 999 (Some "pyrobud") (Some "Bot") None false.
Definition bot_leaves : chat_action := mkAction true false false bot 5 true.

(** group 5 carries a stored [enabled = False] and user 7 still has a
    participation flag for it *)
Definition disabled_store : gmap string value :=
  <["groups.5.enabled" := VBool false]> (<["users.7.has_spoken_in_5" := VBool true]> ∅).

(** group 5 is enabled and user 7 has spoken in it *)
Definition active_store : gmap string value :=
  <["users.7.has_spoken_in_5" := VBool true]> Scenario.enabled_store.

End ScenarioDeparture.

Module ScenarioMore.

(** a client whose remote lookups all fail *)
Definition offline_client : client :=
  mkClient 999 (λ _ _, Raises RPCError) (λ _, Raises RPCError)
           (λ _, "group") (λ _, Nonsense true) 5000.

(** an incoming message of user 7 in group 5 with nothing suspicious *)
Definition greeting : message :=
  mkMessage false (Some 140) false false (Some "hello") None 7 5 true true.

(** group 5 is marked enabled but has no stored enable time *)
Definition no_enable_time_store : gmap string value :=
  <["groups.5.enabled" := VBool true]> ∅.

(** groups 5 and 6 are enabled; user 7 has spoken in both, user 8 in 5 *)
Definition two_groups_store : gmap string value :=
  <["groups.6.enabled" := VBool true]>
    (<["groups.6.enable_time" := VInt 50]>
       (<["users.7.has_spoken_in_6" := VBool true]>
          (<["users.8.has_spoken_in_5" := VBool true]>
             ScenarioDeparture.active_store))).

End ScenarioMore.

(** the world [on_chat_action] leaves when a user other than the bot
    leaves a group with detection enabled: the user's participation flag
    is deleted *)
Definition after_leave (user_id chat : Z) (w : world) : world :=
  mkWorld (base.delete (participation_flag user_id chat) (store w))
          (writes w ++ [Delete (participation_flag user_id chat)])
          (log w) (calls w).

(** what [profile_check_crypto] answers for a first name and an optional
    last name *)
Definition crypto_verdict (fn : string) (ln : option string) : bool :=
  list_in (PyStr.lower fn) suspicious_first_names
  || PyStr.contains fn "t.me"
  || from_option (λ l, PyStr.contains l "t.me") false ln.

Module ScenarioJoin.

(** a user named after an announcement channel, with a link as last name *)
Definition announcer : user :=
  mkUser 9 (Some "cryptonews") (Some "ANNOUNCEMENT") (Some "join t.me/x") true.

(** an ordinary user *)
Definition ann : user := mkUser 10 (Some "ann") (Some "Ann") None true.

(** user [u] leaves group 5 *)
Definition leave_of (u : user) : chat_action := mkAction true false false u 5 true.

(** an event that is neither a departure nor an arrival *)
Definition title_change (u : user) : chat_action := mkAction false false false u 5 true.

End ScenarioJoin.

(** a string without the separator [.] *)
Fixpoint dotless (s : string) : bool :=
  match s with
  | EmptyString => true
  | String ch s' => negb (Ascii.eqb ch ".") && dotless s'
  end.

(** the root keys [clear_group] is after: the keys of the groups view
    under the prefix of the group, and the keys of the users view that end
    with the flag suffix of the group *)
Definition targeted (g : Z) (r : string) : bool :=
  PyStr.startswith r ("groups." +:+ PyStr.of_int g +:+ ".")
  || PyStr.startswith r "users."
     && PyStr.endswith (PyStr.drop 6 r) (".has_spoken_in_" +:+ PyStr.of_int g).

(** the invariant of the group state: a group with detection enabled has
    a numeric enable time *)
Definition enable_time_recorded (s : gmap string value) : Prop :=
  ∀ g, detection_enabled g s = true → is_Some (enableTime g s).

(** storing one value under a list of root keys, one after the other *)
Definition put_keys (v : value) (ks : list string) (s : gmap string value)
    : gmap string value :=
  foldl (λ acc k, <[k := v]> acc) s ks.

(** the root keys the migration of [on_load] writes: one enable-time key
    for each key of the groups view that ends in [.enabled] and holds a
    true value *)
Definition migration_keys (s : gmap string value) : list string :=
  omap (λ kv : string * value,
          if PyStr.endswith kv.1 ".enabled" && truthy kv.2
          then Some (group_db +:+ PyStr.replace kv.1 ".enabled" ".enable_time")
          else None)
       (DB.iterator group_db "" s).

(** the legacy tracking start time of a store, if it has one *)
Definition legacy_start_time (s : gmap string value) : option value :=
  match s !! "first_msg_start_time" with
  | Some VNone | None => None
  | Some v => Some v
  end.

(** the world [on_load] leaves after migrating the legacy value [v] *)
Definition migrated (v : value) (w : world) : world :=
  mkWorld (base.delete "first_msg_start_time" (put_keys v (migration_keys (store w)) (store w)))
          (writes w
           ++ map (λ k, Put k v) (migration_keys (store w))
           ++ [Delete "first_msg_start_time"])
          (log w ++ [(Info,
             "Migrating message tracking start times to the new per-group format")])
          (calls w).

(** the last character of a string *)
Fixpoint last_char (s : string) : option ascii :=
  match s with
  | EmptyString => None
  | String ch EmptyString => Some ch
  | String _ s' => last_char s'
  end.

Module ScenarioLegacy.

(** a store of the old format: one global start time, group 5 enabled,
    group 6 with a stored false *)
Definition legacy_store : gmap string value :=
  <["first_msg_start_time" := VInt 77]>
    (<["groups.5.enabled" := VBool true]>
       (<["groups.6.enabled" := VBool false]>
          (<["users.7.has_spoken_in_5" := VBool true]> ∅))).

End ScenarioLegacy.

(** * Properties *)

(** ** Running handlers *)

Lemma run_bind {A B : Type} (m : M A) (f : A → M B) (w : world) :
  (m ≫= f) w =
  match m w with
  | (Returns a, w') => f a w'
  | (Raises e, w') => (Raises e, w')
  end.
Proof. reflexivity. Qed.

Lemma run_ret {A : Type} (a : A) (w : world) : (mret a : M A) w = (Returns a, w).
Proof. reflexivity. Qed.

Lemma number_run (v : value) (n : Z) (w : world) :
  as_number v = Some n → number v w = (Returns n, w).
Proof. intros H. unfold number. rewrite H. reflexivity. Qed.

Lemma threshold_run (w : world) (t : Z) :
  suspiciousJoinWindowSeconds (store w) = Some t →
  (db_get db "threshold_time" (VInt 30) ≫= number) w = (Returns t, w).
Proof.
  unfold suspiciousJoinWindowSeconds. intros H.
  rewrite run_bind. unfold db_get, DB.get, db.
  change ("" +:+ "threshold_time") with "threshold_time".
  destruct (store w !! "threshold_time") as [v|].
  - apply number_run, H.
  - injection H as <-. reflexivity.
Qed.

Lemma enable_time_run (chat : Z) (w : world) (e : Z) :
  enableTime chat (store w) = Some e →
  (db_get group_db (PyStr.of_int chat +:+ ".enable_time") VNone ≫= number) w
  = (Returns e, w).
Proof.
  unfold enableTime. intros H.
  rewrite run_bind. unfold db_get, DB.get, group_db.
  change ("groups." +:+ PyStr.of_int chat +:+ ".enable_time")
    with ("groups." +:+ (PyStr.of_int chat +:+ ".enable_time")) in H.
  destruct (store w !! ("groups." +:+ PyStr.of_int chat +:+ ".enable_time")) as [v|];
    simpl in H; [|discriminate].
  apply number_run, H.
Qed.

Lemma participant_date_run (p : participant) (pd : Z) (w : world) :
  joinTimestamp p = Some pd → participant_date p w = (Returns pd, w).
Proof. destruct p; simpl; intros H; try discriminate; injection H as <-; reflexivity. Qed.

(** [msg_is_suspicious] only reads: whatever it returns or raises, it
    leaves the world as it found it. *)
Lemma msg_is_suspicious_reads_only (c : client) (msg : message) (w : world) :
  (msg_is_suspicious c msg w).2 = w.
Proof.
  unfold msg_is_suspicious.
  destruct (negb (msg_data_is_suspicious msg)); [reflexivity|].
  rewrite run_bind. unfold lift.
  destruct (GetParticipantRequest c (chat_id msg) (sender_id msg)) as [p|e];
    [|reflexivity].
  destruct p; [reflexivity|..].
  all: rewrite !run_bind; unfold message_date, participant_date, db_get, number, raise;
    cbv [mbind M_bind mret M_ret]; repeat case_match; simplify_eq; reflexivity.
Qed.

(** The path of [msg_is_suspicious] past the creator exemption: with
    suspicious data, a participant record that carries a join date and a
    dated message, what remains are the two timing checks. *)
Lemma msg_is_suspicious_timing
    (c : client) (msg : message) (w : world) (p : participant) (d pd : Z) :
  msg_data_is_suspicious msg = true →
  GetParticipantRequest c (chat_id msg) (sender_id msg) = Returns p →
  date msg = Some d →
  joinTimestamp p = Some pd →
  msg_is_suspicious c msg w =
  (threshold ← db_get db "threshold_time" (VInt 30) ≫= number;
   if d - pd <=? threshold then mret true
   else
     enable_time ←
       db_get group_db (PyStr.of_int (chat_id msg) +:+ ".enable_time") VNone
       ≫= number;
     if pd >? enable_time then
       spoken ← db_get user_db (has_spoken_key (sender_id msg) (chat_id msg))
                       (VBool false);
       if negb (truthy spoken) then mret true else mret false
     else mret false) w.
Proof.
  intros Hdata Hp Hd Hpd. unfold msg_is_suspicious. rewrite Hdata.
  change (negb true) with false. cbv iota.
  rewrite run_bind. unfold lift. rewrite Hp.
  destruct p as [|j dm bu|j]; [discriminate Hpd|..];
    simpl in Hpd; injection Hpd as ->;
    rewrite run_bind; unfold message_date; rewrite Hd, run_ret;
    rewrite run_bind; unfold participant_date; rewrite run_ret; reflexivity.
Qed.

(** ** The message verdict *)

(** C7: a message of the group creator is never suspicious, whatever its
    content, its date and the state of the store. *)
Theorem msg_is_suspicious_creator_exempt (c : client) (msg : message) (w : world) :
  GetParticipantRequest c (chat_id msg) (sender_id msg) = Returns ChannelParticipantCreator →
  msg_is_suspicious c msg w = (Returns false, w).
Proof.
  intros Hp. unfold msg_is_suspicious.
  destruct (negb (msg_data_is_suspicious msg)); [reflexivity|].
  rewrite run_bind. unfold lift. rewrite Hp. reflexivity.
Qed.

Lemma msg_is_suspicious_creator_exempt_witness :
  msg_is_suspicious Scenario.creator_client (Scenario.spam_at 120)
                    (Scenario.fresh Scenario.enabled_store)
  = (Returns false, Scenario.fresh Scenario.enabled_store).
Proof. apply msg_is_suspicious_creator_exempt. reflexivity. Defined.

(** C1: a message whose data is suspicious, from a sender who is not the
    creator, sent at most [suspiciousJoinWindowSeconds] after the sender
    joined, is suspicious; the window is read from the root key
    [threshold_time] and is 30 seconds when that key is absent. *)
Theorem msg_is_suspicious_join_window
    (c : client) (msg : message) (w : world) (p : participant) (d pd t : Z) :
  msg_data_is_suspicious msg = true →
  GetParticipantRequest c (chat_id msg) (sender_id msg) = Returns p →
  p ≠ ChannelParticipantCreator →
  date msg = Some d →
  joinTimestamp p = Some pd →
  suspiciousJoinWindowSeconds (store w) = Some t →
  d - pd ≤ t →
  msg_is_suspicious c msg w = (Returns true, w)
  ∧ (store w !! "threshold_time" = None → t = 30).
Proof.
  intros Hdata Hp Hne Hd Hpd Ht Hle. split.
  - rewrite (msg_is_suspicious_timing c msg w p d pd Hdata Hp Hd Hpd).
    rewrite run_bind, (threshold_run w t Ht).
    apply Z.leb_le in Hle. rewrite Hle. reflexivity.
  - intros Hnone. unfold suspiciousJoinWindowSeconds in Ht. rewrite Hnone in Ht.
    congruence.
Qed.

Lemma msg_is_suspicious_join_window_witness :
  msg_is_suspicious Scenario.member_client (Scenario.spam_at 140)
                    (Scenario.fresh Scenario.enabled_store)
  = (Returns true, Scenario.fresh Scenario.enabled_store).
Proof.
  apply (msg_is_suspicious_join_window Scenario.member_client (Scenario.spam_at 140)
           (Scenario.fresh Scenario.enabled_store) (ChannelParticipant 110) 140 110 30);
    [reflexivity | reflexivity | discriminate | reflexivity | reflexivity
    | vm_compute; reflexivity | lia].
Defined.

(** The first-message rule, once the join window has passed: it is
    decided by the strict comparison [join_time_sec > enable_time]. *)
Lemma msg_is_suspicious_after_window
    (c : client) (msg : message) (w : world) (p : participant) (d pd t e : Z) :
  msg_data_is_suspicious msg = true →
  GetParticipantRequest c (chat_id msg) (sender_id msg) = Returns p →
  date msg = Some d →
  joinTimestamp p = Some pd →
  suspiciousJoinWindowSeconds (store w) = Some t →
  t < d - pd →
  enableTime (chat_id msg) (store w) = Some e →
  msg_is_suspicious c msg w =
  (Returns ((pd >? e)
            && negb (truthy (DB.get user_db (has_spoken_key (sender_id msg) (chat_id msg))
                                    (VBool false) (store w)))), w).
Proof.
  intros Hdata Hp Hd Hpd Ht Hlt He.
  rewrite (msg_is_suspicious_timing c msg w p d pd Hdata Hp Hd Hpd).
  rewrite run_bind, (threshold_run w t Ht).
  apply Z.leb_gt in Hlt. rewrite Hlt.
  rewrite run_bind, (enable_time_run _ w e He).
  destruct (pd >? e); [|reflexivity].
  rewrite run_bind. unfold db_get.
  destruct (negb (truthy _)); reflexivity.
Qed.

(** C2, as stated, fails at the boundary: user 7 joined group 5 at time
    110, the very second detection was enabled there; 90 seconds later
    (past the 30-second window) the user's first message, which mentions a
    keyword, arrives and no participation flag exists.  The claim's
    premises hold, and the verdict is [False]. *)
Lemma msg_is_suspicious_enable_time_equals_join :
  msg_data_is_suspicious (Scenario.spam_at 200) = true
  ∧ GetParticipantRequest Scenario.member_client 5 7 = Returns (ChannelParticipant 110)
  ∧ suspiciousJoinWindowSeconds Scenario.enabled_at_join_store = Some 30
  ∧ 30 < 200 - 110
  ∧ enableTime 5 Scenario.enabled_at_join_store = Some 110
  ∧ 110 ≤ 110
  ∧ Scenario.enabled_at_join_store !! participation_flag 7 5 = None
  ∧ msg_is_suspicious Scenario.member_client (Scenario.spam_at 200)
                      (Scenario.fresh Scenario.enabled_at_join_store)
    = (Returns false, Scenario.fresh Scenario.enabled_at_join_store).
Proof. repeat split; try (vm_compute; reflexivity); lia. Qed.

(** C2 (amended): past the join window, a message with suspicious data
    from a non-creator is suspicious when the group's [enableTime] is
    strictly less than the sender's join timestamp and no participation
    flag exists for (sender, group); when [enableTime] is not less than the
    join timestamp, equality included, the first-message rule does not
    apply and the verdict is false. *)
Theorem msg_is_suspicious_first_message
    (c : client) (msg : message) (w : world) (p : participant) (d pd t e : Z) :
  msg_data_is_suspicious msg = true →
  GetParticipantRequest c (chat_id msg) (sender_id msg) = Returns p →
  p ≠ ChannelParticipantCreator →
  date msg = Some d →
  joinTimestamp p = Some pd →
  suspiciousJoinWindowSeconds (store w) = Some t →
  t < d - pd →
  enableTime (chat_id msg) (store w) = Some e →
  (e < pd →
   store w !! participation_flag (sender_id msg) (chat_id msg) = None →
   msg_is_suspicious c msg w = (Returns true, w))
  ∧ (pd ≤ e → msg_is_suspicious c msg w = (Returns false, w)).
Proof.
  intros Hdata Hp _ Hd Hpd Ht Hlt He.
  rewrite (msg_is_suspicious_after_window c msg w p d pd t e Hdata Hp Hd Hpd Ht Hlt He).
  split.
  - intros Hepd Hflag. unfold DB.get, user_db.
    change ("users." +:+ has_spoken_key (sender_id msg) (chat_id msg))
      with (participation_flag (sender_id msg) (chat_id msg)).
    rewrite Hflag. replace (pd >? e) with true; [reflexivity|].
    symmetry. apply Z.gtb_gt. lia.
  - intros Hle. replace (pd >? e) with false; [reflexivity|].
    symmetry. rewrite Z.gtb_ltb. apply Z.ltb_ge. lia.
Qed.

Lemma msg_is_suspicious_first_message_witness :
  msg_is_suspicious Scenario.member_client (Scenario.spam_at 200)
                    (Scenario.fresh Scenario.enabled_store)
  = (Returns true, Scenario.fresh Scenario.enabled_store).
Proof.
  apply (msg_is_suspicious_first_message Scenario.member_client (Scenario.spam_at 200)
           (Scenario.fresh Scenario.enabled_store) (ChannelParticipant 110)
           200 110 30 100);
    [reflexivity | reflexivity | discriminate | reflexivity | reflexivity
    | vm_compute; reflexivity | lia | vm_compute; reflexivity | lia
    | vm_compute; reflexivity].
Defined.

(** C8: the data of an outgoing or undated message is never suspicious;
    for an incoming, dated message the verdict is exactly
    (forwarded and photo) or suspicious content, where the content is
    suspicious when the message has a suspicious entity or keyword. *)
Theorem msg_data_is_suspicious_spec (msg : message) :
  (out msg = true ∨ date msg = None → msg_data_is_suspicious msg = false)
  ∧ (out msg = false → is_Some (date msg) →
     msg_data_is_suspicious msg
     = (forward msg && photo msg) || msg_content_suspicious msg)
  ∧ msg_content_suspicious msg
    = msg_has_suspicious_entity msg || msg_has_suspicious_keyword msg.
Proof.
  unfold msg_data_is_suspicious. repeat split.
  - intros [Hout | Hdate].
    + rewrite Hout. reflexivity.
    + rewrite Hdate. rewrite bool_decide_eq_false_2.
      * rewrite andb_false_r. reflexivity.
      * intros [x Hx]. discriminate Hx.
  - intros Hout Hdate. rewrite Hout, bool_decide_eq_true_2 by exact Hdate.
    reflexivity.
Qed.

Lemma msg_data_is_suspicious_spec_witness :
  msg_data_is_suspicious
    (mkMessage true (Some 140) true true (Some "bitcoin") None 7 5 true true) = false
  ∧ msg_data_is_suspicious
      (mkMessage false (Some 140) true true None None 7 5 true true)
    = (true && true) || false.
Proof.
  split.
  - apply (msg_data_is_suspicious_spec
             (mkMessage true (Some 140) true true (Some "bitcoin") None 7 5 true true)).
    left. reflexivity.
  - apply (msg_data_is_suspicious_spec
             (mkMessage false (Some 140) true true None None 7 5 true true)).
    + reflexivity.
    + simpl. eexists. reflexivity.
Defined.

(** ** The profile checks *)

Lemma char_in_ascii_uppercase (ch : ascii) :
  PyStr.char_in ch PyStr.ascii_uppercase = is_upper_AZ ch.
Proof. destruct ch as [[] [] [] [] [] [] [] []]; vm_compute; reflexivity. Qed.

Lemma char_in_ascii_lowercase (ch : ascii) :
  PyStr.char_in ch PyStr.ascii_lowercase = is_lower_az ch.
Proof. destruct ch as [[] [] [] [] [] [] [] []]; vm_compute; reflexivity. Qed.

Lemma forallb_lowercase (rest : string) :
  forallb (λ ch, PyStr.char_in ch PyStr.ascii_lowercase) (PyStr.chars rest)
  = forallb is_lower_az (PyStr.chars rest).
Proof.
  induction (PyStr.chars rest) as [|ch l IH]; [reflexivity|].
  simpl. rewrite char_in_ascii_lowercase, IH. reflexivity.
Qed.

(** [profile_check_nonsense], gate by gate. *)
Lemma profile_check_nonsense_unfold (c : client) (u : user) (w : world) :
  profile_check_nonsense c u w =
  match username u with
  | None => (Returns false, w)
  | Some name =>
      if negb (username_gate name) then (Returns false, w)
      else if user_photo u then (Returns false, w)
      else match GetFullUserRequest c u with
           | Raises e => (Raises e, w)
           | Returns about =>
               if has_bio about then (Returns false, w)
               else match nonsense c name with
                    | Nonsense b => (Returns b, w)
                    | ValueError =>
                        (Returns true,
                         mkWorld (store w) (writes w)
                           (log w ++ [(Warn,
                              "Nostril's nonsense word checker failed to process name '"
                              +:+ name +:+ "'")])
                           (calls w))
                    end
           end
  end.
Proof.
  unfold profile_check_nonsense, username_gate, length_in_window.
  destruct (username u) as [[|c0 rest]|]; [reflexivity| |reflexivity].
  destruct ((10 <=? _) && (_ <=? 12)); [|reflexivity].
  rewrite char_in_ascii_uppercase, forallb_lowercase.
  unfold first_is_upper, rest_is_lower.
  destruct (is_upper_AZ c0); [|reflexivity].
  destruct (forallb is_lower_az (PyStr.chars rest)); [|reflexivity].
  simpl. destruct (user_photo u); [reflexivity|].
  rewrite run_bind. unfold lift.
  destruct (GetFullUserRequest c u) as [[[|b0 bio]|]|e]; try reflexivity.
  all: simpl; destruct (nonsense c (String c0 rest)) as [[]|]; reflexivity.
Qed.

Lemma profile_check_nonsense_false_pure (c : client) (u : user) (w : world) :
  (profile_check_nonsense c u w).1 = Returns false →
  profile_check_nonsense c u w = (Returns false, w).
Proof.
  rewrite profile_check_nonsense_unfold.
  repeat case_match; simpl; intros Hret; simplify_eq; reflexivity.
Qed.

Lemma is_enabled_run (g : bool) (chat : Z) (w : world) :
  is_enabled g chat w = (Returns (g && detection_enabled chat (store w)), w).
Proof.
  unfold is_enabled, detection_enabled. destruct g; [|reflexivity].
  rewrite run_bind. unfold db_get, DB.get, group_db.
  destruct (store w !! _); reflexivity.
Qed.

(** C3: once the username, avatar and bio gates have passed, a
    pronounceability test that raises [ValueError] on the username is
    recovered from: a warning is logged and the check returns true. *)
Theorem profile_check_nonsense_analyzer_failure
    (c : client) (u : user) (w : world) (name : string) (about : option string) :
  username u = Some name →
  username_gate name = true →
  user_photo u = false →
  GetFullUserRequest c u = Returns about →
  has_bio about = false →
  nonsense c name = ValueError →
  profile_check_nonsense c u w =
  (Returns true,
   mkWorld (store w) (writes w)
     (log w ++ [(Warn, "Nostril's nonsense word checker failed to process name '"
                       +:+ name +:+ "'")])
     (calls w)).
Proof.
  intros Hname Hgate Hphoto Hfull Hbio Hfail.
  rewrite profile_check_nonsense_unfold.
  rewrite Hname, Hgate, Hphoto, Hfull, Hbio, Hfail. reflexivity.
Qed.

Lemma profile_check_nonsense_analyzer_failure_witness :
  profile_check_nonsense ScenarioUsers.failing_analyzer ScenarioUsers.nameless
                         (Scenario.fresh ∅)
  = (Returns true,
     mkWorld ∅ []
       [(Warn, "Nostril's nonsense word checker failed to process name 'Xkqzpvbtab'")]
       []).
Proof.
  apply (profile_check_nonsense_analyzer_failure ScenarioUsers.failing_analyzer
           ScenarioUsers.nameless (Scenario.fresh ∅) "Xkqzpvbtab" None);
    vm_compute; reflexivity.
Defined.

(** C9: the check returns false for a user without username, with a
    username whose length is outside [10,12], whose first character is not
    an uppercase A-Z letter or whose remaining characters are not all
    lowercase a-z, for a user with an avatar, and for a user whose fetched
    extended profile has a bio; a user the check marks suspicious has
    passed every one of these gates. *)
Theorem profile_check_nonsense_gates (c : client) (u : user) (w : world) :
  (username u = None
   ∨ (∃ name, username u = Some name
        ∧ (PyStr.len name < 10 ∨ 12 < PyStr.len name
           ∨ first_is_upper name = false ∨ rest_is_lower name = false))
   ∨ user_photo u = true
   ∨ (∃ about, GetFullUserRequest c u = Returns about ∧ has_bio about = true)
   → profile_check_nonsense c u w = (Returns false, w))
  ∧ ((profile_check_nonsense c u w).1 = Returns true →
     ∃ name about,
       username u = Some name
       ∧ 10 ≤ PyStr.len name ≤ 12
       ∧ first_is_upper name = true ∧ rest_is_lower name = true
       ∧ user_photo u = false
       ∧ GetFullUserRequest c u = Returns about ∧ has_bio about = false).
Proof.
  rewrite profile_check_nonsense_unfold. split.
  - intros [Hnone | [(name & Hname & Hshape) | [Hphoto | (about & Hfull & Hbio)]]].
    + rewrite Hnone. reflexivity.
    + rewrite Hname. replace (username_gate name) with false; [reflexivity|].
      symmetry. unfold username_gate, length_in_window.
      destruct Hshape as [Hlen | [Hlen | [Hfirst | Hrest]]].
      * apply Z.leb_gt in Hlen. rewrite Hlen. reflexivity.
      * apply Z.leb_gt in Hlen. rewrite Hlen, andb_false_r. reflexivity.
      * rewrite Hfirst, andb_false_r. reflexivity.
      * rewrite Hrest, andb_false_r. reflexivity.
    + destruct (username u) as [name|]; [|reflexivity].
      rewrite Hphoto. destruct (negb (username_gate name)); reflexivity.
    + destruct (username u) as [name|]; [|reflexivity].
      rewrite Hfull, Hbio.
      destruct (negb (username_gate name)), (user_photo u); reflexivity.
  - destruct (username u) as [name|]; [|discriminate].
    destruct (username_gate name) eqn:Hgate; [|discriminate]. simpl.
    destruct (user_photo u); [discriminate|].
    destruct (GetFullUserRequest c u) as [about|e]; [|discriminate].
    destruct (has_bio about) eqn:Hbio; [discriminate|].
    intros _. exists name, about.
    unfold username_gate, length_in_window in Hgate.
    apply andb_prop in Hgate as [Hgate Hrest].
    apply andb_prop in Hgate as [Hlen Hfirst].
    apply andb_prop in Hlen as [Hlo Hhi].
    apply Z.leb_le in Hlo, Hhi. repeat split; assumption || reflexivity.
Qed.

Lemma profile_check_nonsense_gates_witness :
  profile_check_nonsense Scenario.member_client
    (mkUser 7 (Some "Xkqzpvbt") (Some "Ann") None false) (Scenario.fresh ∅)
  = (Returns false, Scenario.fresh ∅)
  ∧ ∃ name about,
      username ScenarioUsers.nameless = Some name
      ∧ 10 ≤ PyStr.len name ≤ 12
      ∧ first_is_upper name = true ∧ rest_is_lower name = true
      ∧ user_photo ScenarioUsers.nameless = false
      ∧ GetFullUserRequest Scenario.member_client ScenarioUsers.nameless = Returns about
      ∧ has_bio about = false.
Proof.
  split.
  - apply (profile_check_nonsense_gates Scenario.member_client
             (mkUser 7 (Some "Xkqzpvbt") (Some "Ann") None false) (Scenario.fresh ∅)).
    right. left. exists "Xkqzpvbt". split; [reflexivity|]. left. vm_compute. reflexivity.
  - apply (profile_check_nonsense_gates Scenario.member_client ScenarioUsers.nameless
             (Scenario.fresh ∅)).
    vm_compute. reflexivity.
Defined.

(** C10: [profile_check_crypto] reads the first name unconditionally, so
    for a user without first name it raises instead of returning a
    verdict; [user_is_suspicious] then raises too whenever the nonsense
    check has not already answered true, and so does the handling of the
    join of such a user in a group with detection enabled, with no action
    taken. *)
Theorem profile_check_crypto_partial (c : client) (u : user) (w : world) :
  first_name u = None →
  profile_check_crypto u = Raises AttributeError
  ∧ ((profile_check_nonsense c u w).1 = Returns false →
     user_is_suspicious c u w = (Raises AttributeError, w))
  ∧ (∀ action : chat_action,
       action_user action = u →
       user_left action = false →
       user_added action = true ∨ user_joined action = true →
       action_is_group action = true →
       detection_enabled (action_chat_id action) (store w) = true →
       (profile_check_nonsense c u w).1 = Returns false →
       on_chat_action c action w = (Raises AttributeError, w)).
Proof.
  intros Hfn.
  assert (Hcrypto : profile_check_crypto u = Raises AttributeError).
  { unfold profile_check_crypto. rewrite Hfn. reflexivity. }
  assert (Huser : (profile_check_nonsense c u w).1 = Returns false →
                  user_is_suspicious c u w = (Raises AttributeError, w)).
  { intros Hn. apply profile_check_nonsense_false_pure in Hn.
    unfold user_is_suspicious. rewrite run_bind, Hn. cbv iota.
    rewrite run_bind. unfold lift. rewrite Hcrypto. reflexivity. }
  split; [exact Hcrypto|]. split; [exact Huser|].
  intros action Hu Hleft Hnew Hgroup Hen Hn.
  unfold on_chat_action. rewrite Hleft, run_bind, run_ret. cbv iota.
  replace (negb (user_added action) && negb (user_joined action)) with false
    by (destruct Hnew as [-> | ->]; [reflexivity | rewrite andb_false_r; reflexivity]).
  rewrite run_bind, is_enabled_run, Hgroup, Hen. simpl.
  rewrite run_bind, Hu, (Huser Hn). reflexivity.
Qed.

Lemma profile_check_crypto_partial_witness :
  profile_check_crypto ScenarioUsers.deleted_account = Raises AttributeError
  ∧ user_is_suspicious Scenario.member_client ScenarioUsers.deleted_account
                       (Scenario.fresh Scenario.enabled_store)
    = (Raises AttributeError, Scenario.fresh Scenario.enabled_store)
  ∧ on_chat_action Scenario.member_client
                   (ScenarioUsers.join_of ScenarioUsers.deleted_account)
                   (Scenario.fresh Scenario.enabled_store)
    = (Raises AttributeError, Scenario.fresh Scenario.enabled_store).
Proof.
  destruct (profile_check_crypto_partial Scenario.member_client
              ScenarioUsers.deleted_account (Scenario.fresh Scenario.enabled_store)
              eq_refl) as (Hcrypto & Huser & Hjoin).
  split; [exact Hcrypto|]. split.
  - apply Huser. reflexivity.
  - apply Hjoin; [reflexivity | reflexivity | right; reflexivity | reflexivity
                 | vm_compute; reflexivity | reflexivity].
Defined.

(** ** The group lifecycle *)

Lemma missing_permissions_spec (ptcp : participant) :
  if has_required_rights ptcp
  then missing_permissions ptcp = None
  else ∃ refusal, missing_permissions ptcp = Some refusal
                  ∧ refusal ≠ status_line true ∧ refusal ≠ status_line false.
Proof.
  destruct ptcp as [|j [] []|j]; simpl; try reflexivity;
    eexists; (split; [reflexivity|]); split; discriminate.
Qed.

(** C4: a toggle in a supergroup where detection is off enables it
    exactly when the bot is the creator, or an admin with both the
    delete-messages and the ban-users right: then [enabled = True] and
    [enable_time = now] are stored for the group; otherwise the command
    returns an explanation and leaves the store, and the whole world,
    untouched. *)
Theorem cmd_antibot_toggle_on (c : client) (msg : message) (w : world) (ptcp : participant) :
  is_group msg = true →
  is_channel msg = true →
  detection_enabled (chat_id msg) (store w) = false →
  GetParticipantRequest c (chat_id msg) (uid c) = Returns ptcp →
  (has_required_rights ptcp = true →
   cmd_antibot c msg w =
   (Returns "Antibot is now **enabled** in this group.",
    mkWorld
      (<["groups." +:+ PyStr.of_int (chat_id msg) +:+ ".enable_time" := VInt (time_sec c)]>
         (<["groups." +:+ PyStr.of_int (chat_id msg) +:+ ".enabled" := VBool true]>
            (store w)))
      (writes w
       ++ [Put ("groups." +:+ PyStr.of_int (chat_id msg) +:+ ".enabled") (VBool true)]
       ++ [Put ("groups." +:+ PyStr.of_int (chat_id msg) +:+ ".enable_time")
               (VInt (time_sec c))])
      (log w) (calls w)))
  ∧ (has_required_rights ptcp = false →
     ∃ refusal, cmd_antibot c msg w = (Returns refusal, w)
                ∧ refusal ≠ "Antibot is now **enabled** in this group.")
  ∧ ((cmd_antibot c msg w).1 = Returns "Antibot is now **enabled** in this group." →
     has_required_rights ptcp = true).
Proof.
  intros Hgroup Hchannel Hoff Hptcp.
  assert (Hrun : cmd_antibot c msg w =
    match missing_permissions ptcp with
    | Some refusal => (Returns refusal, w)
    | None =>
        (Returns (status_line true),
         mkWorld
           (<["groups." +:+ PyStr.of_int (chat_id msg) +:+ ".enable_time" := VInt (time_sec c)]>
              (<["groups." +:+ PyStr.of_int (chat_id msg) +:+ ".enabled" := VBool true]>
                 (store w)))
           ((writes w
             ++ [Put ("groups." +:+ PyStr.of_int (chat_id msg) +:+ ".enabled") (VBool true)])
            ++ [Put ("groups." +:+ PyStr.of_int (chat_id msg) +:+ ".enable_time")
                    (VInt (time_sec c))])
           (log w) (calls w))
    end).
  { unfold cmd_antibot. rewrite Hgroup, Hchannel. simpl negb. cbv iota.
    change (negb true) with false. cbv iota.
    rewrite run_bind. unfold db_get at 1. cbv iota beta.
    replace (truthy (DB.get group_db (PyStr.of_int (chat_id msg) +:+ ".enabled")
                            (VBool false) (store w))) with false.
    2:{ symmetry. unfold detection_enabled in Hoff. unfold DB.get, group_db.
        destruct (store w !! _); [exact Hoff | reflexivity]. }
    change (negb false) with true. cbv iota.
    rewrite run_bind. unfold lift. rewrite Hptcp.
    destruct (missing_permissions ptcp); reflexivity. }
  pose proof (missing_permissions_spec ptcp) as Hperm.
  split; [|split].
  - intros Hrights. rewrite Hrights in Hperm. rewrite Hrun, Hperm.
    rewrite <- app_assoc. reflexivity.
  - intros Hrights. rewrite Hrights in Hperm.
    destruct Hperm as (refusal & Hsome & Hne & _).
    exists refusal. rewrite Hrun, Hsome. split; [reflexivity | exact Hne].
  - rewrite Hrun. destruct (has_required_rights ptcp); [reflexivity|].
    destruct Hperm as (refusal & Hsome & Hne & _). rewrite Hsome. simpl.
    intros Heq. injection Heq as Heq. contradiction.
Qed.

Lemma cmd_antibot_toggle_on_witness :
  (∃ refusal,
     cmd_antibot Scenario.member_client (Scenario.spam_at 120) (Scenario.fresh ∅)
     = (Returns refusal, Scenario.fresh ∅)
     ∧ refusal ≠ "Antibot is now **enabled** in this group.")
  ∧ cmd_antibot Scenario.creator_client (Scenario.spam_at 120) (Scenario.fresh ∅)
    = (Returns "Antibot is now **enabled** in this group.",
       mkWorld (<["groups.5.enable_time" := VInt 5000]>
                  (<["groups.5.enabled" := VBool true]> ∅))
               [Put "groups.5.enabled" (VBool true);
                Put "groups.5.enable_time" (VInt 5000)] [] []).
Proof.
  split.
  - apply (cmd_antibot_toggle_on Scenario.member_client (Scenario.spam_at 120)
             (Scenario.fresh ∅) (ChannelParticipant 110));
      vm_compute; reflexivity.
  - apply (cmd_antibot_toggle_on Scenario.creator_client (Scenario.spam_at 120)
             (Scenario.fresh ∅) ChannelParticipantCreator);
      vm_compute; reflexivity.
Defined.

(** ** The dispatcher *)

Lemma take_action_run (c : client) (chat u : Z) (w : world) :
  take_action c chat u w = (Returns tt, after_take_action c chat u w).
Proof.
  unfold take_action, after_take_action.
  cbv [mbind M_bind call log_msg store writes log calls].
  rewrite <- !app_assoc. reflexivity.
Qed.

(** C6: for a message in a group with detection enabled, a suspicious
    verdict makes the handler take action against the sender and write
    nothing to the store; a non-suspicious verdict makes it store the
    participation flag of (sender, group). *)
Theorem on_message_enabled (c : client) (msg : message) (w : world) :
  is_group msg = true →
  detection_enabled (chat_id msg) (store w) = true →
  ((msg_is_suspicious c msg w).1 = Returns true →
   on_message c msg w
   = (Returns tt, after_take_action c (chat_id msg) (sender_id msg) w)
   ∧ store (on_message c msg w).2 = store w
   ∧ writes (on_message c msg w).2 = writes w
   ∧ KickParticipant (chat_id msg) (sender_id msg) ∈ calls (on_message c msg w).2)
  ∧ ((msg_is_suspicious c msg w).1 = Returns false →
     on_message c msg w
     = (Returns tt,
        mkWorld (<[participation_flag (sender_id msg) (chat_id msg) := VBool true]> (store w))
                (writes w ++ [Put (participation_flag (sender_id msg) (chat_id msg))
                                  (VBool true)])
                (log w) (calls w))).
Proof.
  intros Hgroup Hen.
  pose proof (msg_is_suspicious_reads_only c msg w) as Hsame.
  assert (Hrun : ∀ b, (msg_is_suspicious c msg w).1 = Returns b →
    on_message c msg w =
    (if b then take_action c (chat_id msg) (sender_id msg)
     else db_put user_db (has_spoken_key (sender_id msg) (chat_id msg)) (VBool true)) w).
  { intros b Hb. unfold on_message.
    rewrite run_bind, is_enabled_run, Hgroup, Hen.
    cbv beta iota delta [andb]. rewrite run_bind.
    destruct (msg_is_suspicious c msg w) as [o w'] eqn:Hmsg.
    simpl in Hb, Hsame. subst o w'. reflexivity. }
  split.
  - intros Hb. rewrite (Hrun true Hb), take_action_run.
    repeat split; try reflexivity.
    simpl. apply elem_of_app. right. set_solver.
  - intros Hb. rewrite (Hrun false Hb). reflexivity.
Qed.

Lemma on_message_enabled_witness :
  on_message Scenario.member_client (Scenario.spam_at 140)
             (Scenario.fresh Scenario.enabled_store)
  = (Returns tt, after_take_action Scenario.member_client 5 7
                   (Scenario.fresh Scenario.enabled_store))
  ∧ on_message Scenario.member_client
      (mkMessage false (Some 140) false false (Some "hello") None 7 5 true true)
      (Scenario.fresh Scenario.enabled_store)
    = (Returns tt,
       mkWorld (<["users.7.has_spoken_in_5" := VBool true]> Scenario.enabled_store)
               [Put "users.7.has_spoken_in_5" (VBool true)] [] []).
Proof.
  split.
  - apply (on_message_enabled Scenario.member_client (Scenario.spam_at 140)
             (Scenario.fresh Scenario.enabled_store));
      vm_compute; reflexivity.
  - apply (on_message_enabled Scenario.member_client
             (mkMessage false (Some 140) false false (Some "hello") None 7 5 true true)
             (Scenario.fresh Scenario.enabled_store));
      vm_compute; reflexivity.
Defined.

(** ** Purging a group *)

Section StringFacts.

Lemma startswith_empty (s : string) : PyStr.startswith s "" = true.
Proof. destruct s; reflexivity. Qed.

Lemma startswith_app_app (v k p : string) :
  PyStr.startswith (v +:+ k) (v +:+ p) = PyStr.startswith k p.
Proof.
  induction v as [|a v IH]; [reflexivity|].
  simpl. rewrite Ascii.eqb_refl. exact IH.
Qed.

Lemma drop_app (v k : string) : PyStr.drop (String.length v) (v +:+ k) = k.
Proof. induction v as [|a v IH]; [reflexivity | exact IH]. Qed.

Lemma startswith_app_inv (r v p : string) :
  PyStr.startswith r (v +:+ p) = true →
  r = v +:+ PyStr.drop (String.length v) r
  ∧ PyStr.startswith (PyStr.drop (String.length v) r) p = true.
Proof.
  revert r. induction v as [|a v IH]; intros r Hr.
  - split; [reflexivity | exact Hr].
  - destruct r as [|b r]; [discriminate Hr|]. simpl in Hr.
    destruct (Ascii.eqb a b) eqn:Hab; [|discriminate Hr].
    apply Ascii.eqb_eq in Hab as ->.
    destruct (IH r Hr) as [Heq Hp]. split; [|exact Hp].
    change (String b r = String b (v +:+ PyStr.drop (String.length v) r)).
    f_equal. exact Heq.
Qed.

Lemma endswith_app (a suf : string) : PyStr.endswith (a +:+ suf) suf = true.
Proof.
  induction a as [|ch a IH].
  - destruct suf; simpl; rewrite ?String.eqb_refl, ?Ascii.eqb_refl; reflexivity.
  - change (String ch a +:+ suf) with (String ch (a +:+ suf)).
    cbn [PyStr.endswith]. rewrite IH.
    destruct (String.eqb _ _); reflexivity.
Qed.

End StringFacts.

Section DeleteKeys.

Lemma delete_keys_lookup_None (ks : list string) (s : gmap string value) (r : string) :
  s !! r = None → delete_keys ks s !! r = None.
Proof.
  revert s. induction ks as [|k ks IH]; intros s Hs; [exact Hs|].
  simpl. apply IH. rewrite lookup_delete. case_decide; [reflexivity | exact Hs].
Qed.

Lemma delete_keys_lookup_in (ks : list string) (s : gmap string value) (r : string) :
  r ∈ ks → delete_keys ks s !! r = None.
Proof.
  revert s. induction ks as [|k ks IH]; intros s Hin.
  - inversion Hin.
  - simpl. apply elem_of_cons in Hin as [-> | Hin].
    + apply delete_keys_lookup_None, lookup_delete_eq.
    + apply IH, Hin.
Qed.

Lemma delete_keys_lookup_notin (ks : list string) (s : gmap string value) (r : string) :
  r ∉ ks → delete_keys ks s !! r = s !! r.
Proof.
  revert s. induction ks as [|k ks IH]; intros s Hnotin; [reflexivity|].
  apply not_elem_of_cons in Hnotin as [Hne Hnotin].
  simpl. rewrite (IH _ Hnotin). apply lookup_delete_ne. congruence.
Qed.

Lemma iterator_elem (view p k : string) (v : value) (s : gmap string value) :
  s !! (view +:+ k) = Some v →
  PyStr.startswith k p = true →
  (k, v) ∈ DB.iterator view p s.
Proof.
  intros Hs Hp. unfold DB.iterator. apply list_elem_of_omap.
  exists (view +:+ k, v). split.
  - apply elem_of_map_to_list, Hs.
  - simpl. rewrite startswith_app_app, Hp, drop_app. reflexivity.
Qed.

Lemma iterator_elem_inv (view p k : string) (v : value) (s : gmap string value) :
  (k, v) ∈ DB.iterator view p s →
  s !! (view +:+ k) = Some v ∧ PyStr.startswith k p = true.
Proof.
  unfold DB.iterator. intros Hin.
  apply list_elem_of_omap in Hin as ([r v'] & Hin & Hsel).
  apply elem_of_map_to_list in Hin. simpl in Hsel.
  destruct (PyStr.startswith r (view +:+ p)) eqn:Hr; [|discriminate Hsel].
  injection Hsel as <- <-.
  apply startswith_app_inv in Hr as [Heq Hp].
  rewrite <- Heq. split; assumption.
Qed.

Lemma for_each_delete_run (view : string) (cond : string → bool)
    (kvs : list (string * value)) (w : world) :
  for_each kvs (λ kv, if cond kv.1 then db_delete view kv.1 else mret tt) w
  = (Returns tt,
     mkWorld (delete_keys (selected_keys view cond kvs) (store w))
             (writes w ++ map Delete (selected_keys view cond kvs))
             (log w) (calls w)).
Proof.
  revert w. induction kvs as [|kv kvs IH]; intros w.
  - destruct w. simpl. rewrite app_nil_r. reflexivity.
  - cbn [for_each]. rewrite run_bind.
    unfold selected_keys. cbn [omap list_omap].
    destruct (cond kv.1).
    + unfold db_delete at 1. rewrite IH. cbn [store writes log calls].
      unfold selected_keys. simpl. rewrite <- app_assoc. reflexivity.
    + rewrite run_ret, IH. reflexivity.
Qed.

End DeleteKeys.

Lemma clear_group_run (g : Z) (w : world) :
  clear_group g w
  = (Returns tt,
     mkWorld (cleared g (store w))
             (writes w
              ++ map Delete (group_keys g (store w))
              ++ map Delete (flag_keys g (delete_keys (group_keys g (store w)) (store w))))
             (log w) (calls w)).
Proof.
  unfold clear_group. rewrite run_bind. unfold db_iterator at 1. cbv iota beta.
  rewrite run_bind.
  pose proof (for_each_delete_run group_db (λ _, true)
                (DB.iterator group_db (PyStr.of_int g +:+ ".") (store w)) w) as Hfirst.
  cbv beta iota in Hfirst. rewrite Hfirst. clear Hfirst.
  rewrite run_bind. unfold db_iterator. cbv iota beta.
  rewrite (for_each_delete_run user_db
             (λ k, PyStr.endswith k (".has_spoken_in_" +:+ PyStr.of_int g))).
  cbn [store writes log calls].
  unfold cleared, group_keys, flag_keys. rewrite <- app_assoc. reflexivity.
Qed.

Lemma cleared_purged (g : Z) (s : gmap string value) : purged g (cleared g s).
Proof.
  assert (Hgroups : ∀ k, PyStr.startswith k (PyStr.of_int g +:+ ".") = true →
                         cleared g s !! ("groups." +:+ k) = None).
  { intros k Hk. unfold cleared. apply delete_keys_lookup_None.
    destruct (s !! ("groups." +:+ k)) as [v|] eqn:Hs.
    - apply delete_keys_lookup_in. unfold group_keys, selected_keys.
      apply list_elem_of_omap. exists (k, v). split; [|reflexivity].
      apply iterator_elem; assumption.
    - apply delete_keys_lookup_None, Hs. }
  split; [exact Hgroups|]. split.
  - apply elem_of_nil_inv. intros [k v] Hin.
    apply iterator_elem_inv in Hin as [Hs Hk].
    unfold group_db in Hs. rewrite (Hgroups k Hk) in Hs. discriminate Hs.
  - intros u. unfold cleared.
    set (s1 := delete_keys (group_keys g s) s).
    destruct (s1 !! participation_flag u g) as [v|] eqn:Hs.
    + apply delete_keys_lookup_in. unfold flag_keys, selected_keys.
      apply list_elem_of_omap. exists (has_spoken_key u g, v). split.
      * apply iterator_elem; [exact Hs | apply startswith_empty].
      * simpl. unfold has_spoken_key. rewrite endswith_app. reflexivity.
    + apply delete_keys_lookup_None, Hs.
Qed.

(** the keys [clear_group] does not select are kept *)
Lemma cleared_frame (g : Z) (s : gmap string value) (r : string) :
  r ∉ group_keys g s →
  r ∉ flag_keys g (delete_keys (group_keys g s) s) →
  cleared g s !! r = s !! r.
Proof.
  intros H1 H2. unfold cleared.
  rewrite delete_keys_lookup_notin by exact H2.
  apply delete_keys_lookup_notin, H1.
Qed.

(** C5, as stated, fails for a departure from a group whose stored
    [enabled] value is false: [on_chat_action] only cleans up behind the
    guard [is_enabled(action)], so the bot's own departure leaves the
    group's key and the participation flag in place. *)
Lemma bot_departure_without_detection_keeps_keys :
  on_chat_action Scenario.member_client ScenarioDeparture.bot_leaves
                 (Scenario.fresh ScenarioDeparture.disabled_store)
  = (Returns tt, Scenario.fresh ScenarioDeparture.disabled_store)
  ∧ id (action_user ScenarioDeparture.bot_leaves) = uid Scenario.member_client
  ∧ PyStr.startswith "5.enabled" (PyStr.of_int 5 +:+ ".") = true
  ∧ ScenarioDeparture.disabled_store !! "groups.5.enabled" = Some (VBool false)
  ∧ ScenarioDeparture.disabled_store !! participation_flag 7 5 = Some (VBool true)
  ∧ ¬ purged 5 ScenarioDeparture.disabled_store.
Proof.
  repeat split; try (vm_compute; reflexivity).
  intros (_ & _ & Hflags). specialize (Hflags 7).
  vm_compute in Hflags. discriminate Hflags.
Qed.

(** C5 (amended): after a toggle-off of a group, and after the bot's own
    departure from a group in which detection is enabled, every key of
    the groups view under the group's prefix and every participation flag
    of the users view for that group id has been deleted. *)
Theorem purge_on_toggle_off_and_departure (c : client) (w : world) :
  (∀ msg : message,
     is_group msg = true →
     is_channel msg = true →
     detection_enabled (chat_id msg) (store w) = true →
     ∃ w', cmd_antibot c msg w = (Returns "Antibot is now **disabled** in this group.", w')
           ∧ store w' = cleared (chat_id msg) (store w)
           ∧ purged (chat_id msg) (store w'))
  ∧ (∀ action : chat_action,
       user_left action = true →
       id (action_user action) = uid c →
       action_is_group action = true →
       detection_enabled (action_chat_id action) (store w) = true →
       ∃ w', on_chat_action c action w = (Returns tt, w')
             ∧ purged (action_chat_id action) (store w')).
Proof.
  split.
  - intros msg Hgroup Hchannel Hen.
    unfold cmd_antibot. rewrite Hgroup, Hchannel.
    change (negb true) with false. cbv iota.
    rewrite run_bind. unfold db_get at 1. cbv iota beta.
    replace (truthy (DB.get group_db (PyStr.of_int (chat_id msg) +:+ ".enabled")
                            (VBool false) (store w))) with true.
    2:{ symmetry. unfold detection_enabled in Hen. unfold DB.get, group_db.
        destruct (store w !! _); [exact Hen | discriminate Hen]. }
    change (negb true) with false. cbv iota.
    rewrite run_bind, clear_group_run. cbv iota beta. rewrite run_ret.
    eexists. split; [reflexivity|]. split; [reflexivity|].
    apply cleared_purged.
  - intros action Hleft Hbot Hgroup Hen.
    unfold on_chat_action. rewrite Hleft, run_bind, is_enabled_run, Hgroup, Hen.
    cbv beta iota delta [andb].
    rewrite run_bind. unfold db_delete at 1. cbv iota beta.
    rewrite bool_decide_eq_true_2 by exact Hbot.
    rewrite run_bind. unfold log_msg at 1. cbv iota beta.
    rewrite clear_group_run.
    eexists. split; [reflexivity|]. apply cleared_purged.
Qed.

Lemma purge_on_toggle_off_and_departure_witness :
  (∃ w', cmd_antibot Scenario.member_client (Scenario.spam_at 120)
                     (Scenario.fresh ScenarioDeparture.active_store)
         = (Returns "Antibot is now **disabled** in this group.", w')
         ∧ store w' = cleared 5 ScenarioDeparture.active_store
         ∧ purged 5 (store w'))
  ∧ (∃ w', on_chat_action Scenario.member_client ScenarioDeparture.bot_leaves
                          (Scenario.fresh ScenarioDeparture.active_store)
           = (Returns tt, w')
           ∧ purged 5 (store w')).
Proof.
  split.
  - apply (purge_on_toggle_off_and_departure Scenario.member_client
             (Scenario.fresh ScenarioDeparture.active_store));
      vm_compute; reflexivity.
  - apply (purge_on_toggle_off_and_departure Scenario.member_client
             (Scenario.fresh ScenarioDeparture.active_store)
             ).
    + reflexivity.
    + reflexivity.
    + reflexivity.
    + vm_compute. reflexivity.
Defined.

(** The purge at work: toggling off the group of [active_store] empties
    the store. *)
Example toggle_off_empties_store :
  (cmd_antibot Scenario.member_client (Scenario.spam_at 120)
               (Scenario.fresh ScenarioDeparture.active_store)).1
  = Returns "Antibot is now **disabled** in this group."
  ∧ store (cmd_antibot Scenario.member_client (Scenario.spam_at 120)
                       (Scenario.fresh ScenarioDeparture.active_store)).2 = ∅.
Proof. split; vm_compute; reflexivity. Qed.

(** * Further properties of the handlers *)

(** ** Keys of the three views never collide *)

Lemma flag_ne_threshold (u g : Z) : participation_flag u g ≠ "threshold_time".
Proof. unfold participation_flag. intros H. cbv [String.append] in H. discriminate H. Qed.

Lemma flag_ne_group_key (u g : Z) (k : string) : participation_flag u g ≠ "groups." +:+ k.
Proof. unfold participation_flag. intros H. cbv [String.append] in H. discriminate H. Qed.

Lemma group_key_ne_threshold (k : string) : "groups." +:+ k ≠ "threshold_time".
Proof. intros H. cbv [String.append] in H. discriminate H. Qed.

Lemma has_spoken_key_flag (u g : Z) : user_db +:+ has_spoken_key u g = participation_flag u g.
Proof. reflexivity. Qed.

(** ** [msg_is_suspicious], case by case *)

Lemma msg_is_suspicious_benign (c : client) (msg : message) (w : world) :
  msg_data_is_suspicious msg = false →
  msg_is_suspicious c msg w = (Returns false, w).
Proof. intros Hdata. unfold msg_is_suspicious. rewrite Hdata. reflexivity. Qed.

Lemma msg_is_suspicious_lookup_failure (c : client) (msg : message) (w : world) (e : exn) :
  msg_data_is_suspicious msg = true →
  GetParticipantRequest c (chat_id msg) (sender_id msg) = Raises e →
  msg_is_suspicious c msg w = (Raises e, w).
Proof.
  intros Hdata Hp. unfold msg_is_suspicious. rewrite Hdata.
  change (negb true) with false. cbv iota.
  rewrite run_bind. unfold lift. rewrite Hp. reflexivity.
Qed.

Lemma msg_is_suspicious_no_enable_time
    (c : client) (msg : message) (w : world) (p : participant) (d pd t : Z) :
  msg_data_is_suspicious msg = true →
  GetParticipantRequest c (chat_id msg) (sender_id msg) = Returns p →
  date msg = Some d →
  joinTimestamp p = Some pd →
  suspiciousJoinWindowSeconds (store w) = Some t →
  t < d - pd →
  enableTime (chat_id msg) (store w) = None →
  msg_is_suspicious c msg w = (Raises TypeError, w).
Proof.
  intros Hdata Hp Hd Hpd Ht Hlt He.
  rewrite (msg_is_suspicious_timing c msg w p d pd Hdata Hp Hd Hpd).
  rewrite run_bind, (threshold_run w t Ht).
  apply Z.leb_gt in Hlt. rewrite Hlt.
  rewrite !run_bind. unfold db_get, DB.get, group_db.
  unfold enableTime in He.
  destruct (store w !! ("groups." +:+ PyStr.of_int (chat_id msg) +:+ ".enable_time"))
    as [v|]; simpl in He.
  - unfold number. rewrite He. reflexivity.
  - reflexivity.
Qed.

(** [on_message], outcome by outcome of the verdict. *)
Lemma on_message_run (c : client) (msg : message) (w : world) :
  on_message c msg w =
  if is_group msg && detection_enabled (chat_id msg) (store w) then
    match (msg_is_suspicious c msg w).1 with
    | Returns true =>
        (Returns tt, after_take_action c (chat_id msg) (sender_id msg) w)
    | Returns false =>
        (Returns tt,
         mkWorld (<[participation_flag (sender_id msg) (chat_id msg) := VBool true]> (store w))
                 (writes w ++ [Put (participation_flag (sender_id msg) (chat_id msg))
                                   (VBool true)])
                 (log w) (calls w))
    | Raises e => (Raises e, w)
    end
  else (Returns tt, w).
Proof.
  unfold on_message. rewrite run_bind, is_enabled_run.
  destruct (is_group msg && detection_enabled (chat_id msg) (store w)); [|reflexivity].
  rewrite run_bind.
  pose proof (msg_is_suspicious_reads_only c msg w) as Hsame.
  destruct (msg_is_suspicious c msg w) as [[[]|e] w']; simpl in Hsame; subst w'; simpl.
  - apply take_action_run.
  - reflexivity.
  - reflexivity.
Qed.

(** ** The message handler *)

(** X1: in a group with detection enabled, a message whose data is not
    suspicious makes [on_message] store the sender's participation flag
    without consulting the client: the outcome is the same for every
    client, also one whose lookups fail. *)
Theorem on_message_benign_sets_flag (c : client) (msg : message) (w : world) :
  msg_data_is_suspicious msg = false →
  is_group msg = true →
  detection_enabled (chat_id msg) (store w) = true →
  on_message c msg w
  = (Returns tt,
     mkWorld (<[participation_flag (sender_id msg) (chat_id msg) := VBool true]> (store w))
             (writes w ++ [Put (participation_flag (sender_id msg) (chat_id msg))
                               (VBool true)])
             (log w) (calls w)).
Proof.
  intros Hdata Hgroup Hen.
  rewrite on_message_run, Hgroup, Hen, (msg_is_suspicious_benign c msg w Hdata).
  reflexivity.
Qed.

Lemma on_message_benign_sets_flag_witness :
  on_message ScenarioMore.offline_client ScenarioMore.greeting
             (Scenario.fresh Scenario.enabled_store)
  = (Returns tt,
     mkWorld (<["users.7.has_spoken_in_5" := VBool true]> Scenario.enabled_store)
             [Put "users.7.has_spoken_in_5" (VBool true)] [] []).
Proof.
  apply (on_message_benign_sets_flag ScenarioMore.offline_client ScenarioMore.greeting
           (Scenario.fresh Scenario.enabled_store)); vm_compute; reflexivity.
Defined.

(** X2: once the join window has passed, a sender whose participation
    flag is stored with a true value is not suspicious, whatever the
    message contains and whenever detection was enabled. *)
Theorem msg_is_suspicious_has_spoken
    (c : client) (msg : message) (w : world) (p : participant) (d pd t e : Z) (v : value) :
  msg_data_is_suspicious msg = true →
  GetParticipantRequest c (chat_id msg) (sender_id msg) = Returns p →
  date msg = Some d →
  joinTimestamp p = Some pd →
  suspiciousJoinWindowSeconds (store w) = Some t →
  t < d - pd →
  enableTime (chat_id msg) (store w) = Some e →
  store w !! participation_flag (sender_id msg) (chat_id msg) = Some v →
  truthy v = true →
  msg_is_suspicious c msg w = (Returns false, w).
Proof.
  intros Hdata Hp Hd Hpd Ht Hlt He Hflag Hv.
  rewrite (msg_is_suspicious_after_window c msg w p d pd t e Hdata Hp Hd Hpd Ht Hlt He).
  unfold DB.get. rewrite has_spoken_key_flag, Hflag, Hv.
  rewrite andb_false_r. reflexivity.
Qed.

Lemma msg_is_suspicious_has_spoken_witness :
  msg_is_suspicious Scenario.member_client (Scenario.spam_at 200)
                    (Scenario.fresh ScenarioDeparture.active_store)
  = (Returns false, Scenario.fresh ScenarioDeparture.active_store).
Proof.
  apply (msg_is_suspicious_has_spoken Scenario.member_client (Scenario.spam_at 200)
           (Scenario.fresh ScenarioDeparture.active_store) (ChannelParticipant 110)
           200 110 30 100 (VBool true));
    try (vm_compute; reflexivity); lia.
Defined.

(** X3: when the group has no stored enable time (or one that is not a
    number), a message with suspicious data from a non-creator that
    arrives after the join window makes [msg_is_suspicious] raise
    [TypeError]; [on_message] then raises too, takes no action and writes
    no flag. *)
Theorem msg_is_suspicious_missing_enable_time
    (c : client) (msg : message) (w : world) (p : participant) (d pd t : Z) :
  msg_data_is_suspicious msg = true →
  GetParticipantRequest c (chat_id msg) (sender_id msg) = Returns p →
  date msg = Some d →
  joinTimestamp p = Some pd →
  suspiciousJoinWindowSeconds (store w) = Some t →
  t < d - pd →
  enableTime (chat_id msg) (store w) = None →
  msg_is_suspicious c msg w = (Raises TypeError, w)
  ∧ (is_group msg = true → detection_enabled (chat_id msg) (store w) = true →
     on_message c msg w = (Raises TypeError, w)).
Proof.
  intros Hdata Hp Hd Hpd Ht Hlt He.
  pose proof (msg_is_suspicious_no_enable_time c msg w p d pd t
                Hdata Hp Hd Hpd Ht Hlt He) as Hraise.
  split; [exact Hraise|].
  intros Hgroup Hen. rewrite on_message_run, Hgroup, Hen, Hraise. reflexivity.
Qed.

Lemma msg_is_suspicious_missing_enable_time_witness :
  on_message Scenario.member_client (Scenario.spam_at 200)
             (Scenario.fresh ScenarioMore.no_enable_time_store)
  = (Raises TypeError, Scenario.fresh ScenarioMore.no_enable_time_store).
Proof.
  apply (msg_is_suspicious_missing_enable_time Scenario.member_client (Scenario.spam_at 200)
           (Scenario.fresh ScenarioMore.no_enable_time_store) (ChannelParticipant 110)
           200 110 30);
    try (vm_compute; reflexivity); lia.
Defined.

(** X4: when the participant lookup fails for a message with suspicious
    data, the error is passed on: [msg_is_suspicious] gives no verdict and
    [on_message] neither takes action nor writes a flag. *)
Theorem msg_is_suspicious_lookup_error
    (c : client) (msg : message) (w : world) (e : exn) :
  msg_data_is_suspicious msg = true →
  GetParticipantRequest c (chat_id msg) (sender_id msg) = Raises e →
  msg_is_suspicious c msg w = (Raises e, w)
  ∧ (is_group msg = true → detection_enabled (chat_id msg) (store w) = true →
     on_message c msg w = (Raises e, w)).
Proof.
  intros Hdata Hp.
  pose proof (msg_is_suspicious_lookup_failure c msg w e Hdata Hp) as Hraise.
  split; [exact Hraise|].
  intros Hgroup Hen. rewrite on_message_run, Hgroup, Hen, Hraise. reflexivity.
Qed.

Lemma msg_is_suspicious_lookup_error_witness :
  on_message ScenarioMore.offline_client (Scenario.spam_at 200)
             (Scenario.fresh Scenario.enabled_store)
  = (Raises RPCError, Scenario.fresh Scenario.enabled_store).
Proof.
  apply (msg_is_suspicious_lookup_error ScenarioMore.offline_client (Scenario.spam_at 200)
           (Scenario.fresh Scenario.enabled_store) RPCError);
    vm_compute; reflexivity.
Defined.

(** X5: outside a group, and in a group where detection is not enabled,
    [on_message] does nothing at all, whatever the message and the
    client. *)
Theorem on_message_not_enabled (c : client) (msg : message) (w : world) :
  is_group msg = false ∨ detection_enabled (chat_id msg) (store w) = false →
  on_message c msg w = (Returns tt, w).
Proof.
  intros Hoff. rewrite on_message_run.
  destruct Hoff as [-> | ->]; [reflexivity | rewrite andb_false_r; reflexivity].
Qed.

Lemma on_message_not_enabled_witness :
  on_message ScenarioMore.offline_client (Scenario.spam_at 200) (Scenario.fresh ∅)
  = (Returns tt, Scenario.fresh ∅).
Proof.
  apply (on_message_not_enabled ScenarioMore.offline_client (Scenario.spam_at 200)
           (Scenario.fresh ∅)).
  right. vm_compute. reflexivity.
Defined.

(** X6: after [on_message] has handled a message that was not judged
    suspicious, a later message of the same sender in the same group that
    arrives after the join window is not suspicious, even with suspicious
    data: the first message has set the participation flag. *)
Theorem second_message_not_suspicious
    (c : client) (m1 m2 : message) (w : world) (p : participant) (d pd t e : Z) :
  is_group m1 = true →
  detection_enabled (chat_id m1) (store w) = true →
  (msg_is_suspicious c m1 w).1 = Returns false →
  sender_id m2 = sender_id m1 →
  chat_id m2 = chat_id m1 →
  msg_data_is_suspicious m2 = true →
  GetParticipantRequest c (chat_id m2) (sender_id m2) = Returns p →
  date m2 = Some d →
  joinTimestamp p = Some pd →
  suspiciousJoinWindowSeconds (store w) = Some t →
  t < d - pd →
  enableTime (chat_id m2) (store w) = Some e →
  msg_is_suspicious c m2 (on_message c m1 w).2
  = (Returns false, (on_message c m1 w).2).
Proof.
  intros Hgroup Hen Hfirst Hsender Hchat Hdata Hp Hd Hpd Ht Hlt He.
  rewrite on_message_run, Hgroup, Hen, Hfirst. cbn [andb snd].
  rewrite <- Hsender, <- Hchat.
  set (w1 := mkWorld _ _ _ _).
  assert (Ht1 : suspiciousJoinWindowSeconds (store w1) = Some t).
  { unfold suspiciousJoinWindowSeconds, w1. cbn [store].
    rewrite lookup_insert_ne by apply flag_ne_threshold. exact Ht. }
  assert (He1 : enableTime (chat_id m2) (store w1) = Some e).
  { unfold enableTime, w1. cbn [store].
    rewrite lookup_insert_ne by apply flag_ne_group_key. exact He. }
  rewrite (msg_is_suspicious_after_window c m2 w1 p d pd t e Hdata Hp Hd Hpd Ht1 Hlt He1).
  unfold DB.get. rewrite has_spoken_key_flag. unfold w1. cbn [store].
  rewrite lookup_insert_eq. rewrite andb_false_r. reflexivity.
Qed.

Lemma second_message_not_suspicious_witness :
  msg_is_suspicious Scenario.member_client (Scenario.spam_at 200)
    (on_message Scenario.member_client ScenarioMore.greeting
                (Scenario.fresh Scenario.enabled_store)).2
  = (Returns false,
     (on_message Scenario.member_client ScenarioMore.greeting
                 (Scenario.fresh Scenario.enabled_store)).2).
Proof.
  apply (second_message_not_suspicious Scenario.member_client ScenarioMore.greeting
           (Scenario.spam_at 200) (Scenario.fresh Scenario.enabled_store)
           (ChannelParticipant 110) 200 110 30 100);
    try (vm_compute; reflexivity); lia.
Defined.

(** ** The profile checks, composed *)

Lemma profile_check_crypto_run (u : user) (fn : string) :
  first_name u = Some fn →
  profile_check_crypto u = Returns (crypto_verdict fn (last_name u)).
Proof.
  intros Hfn. unfold profile_check_crypto, crypto_verdict. rewrite Hfn.
  destruct (list_in (PyStr.lower fn) suspicious_first_names); [reflexivity|].
  destruct (PyStr.contains fn "t.me"); [reflexivity|].
  destruct (last_name u) as [[|ch l]|]; cbn [from_option PyStr.truthy andb orb];
    try reflexivity.
  destruct (PyStr.contains (String ch l) "t.me"); reflexivity.
Qed.

Lemma user_is_suspicious_run (c : client) (u : user) (w : world) :
  user_is_suspicious c u w =
  match profile_check_nonsense c u w with
  | (Returns true, w') => (Returns true, w')
  | (Returns false, w') =>
      match profile_check_crypto u with
      | Returns b => (Returns b, w')
      | Raises e => (Raises e, w')
      end
  | (Raises e, w') => (Raises e, w')
  end.
Proof.
  unfold user_is_suspicious. rewrite run_bind.
  destruct (profile_check_nonsense c u w) as [[[]|e] w']; try reflexivity.
  rewrite run_bind. unfold lift.
  destruct (profile_check_crypto u) as [[]|e]; reflexivity.
Qed.

(** [on_chat_action], branch by branch. *)
Lemma on_chat_action_run (c : client) (action : chat_action) (w : world) :
  on_chat_action c action w =
  let chat := action_chat_id action in
  let u := action_user action in
  let en := action_is_group action && detection_enabled chat (store w) in
  if user_left action && en then
    if bool_decide (id u = uid c) then
      clear_group chat
        (mkWorld (store (after_leave (id u) chat w)) (writes (after_leave (id u) chat w))
                 (log w ++ [(Info, "Cleaning up settings for group " +:+ PyStr.of_int chat)])
                 (calls w))
    else (Returns tt, after_leave (id u) chat w)
  else if negb (user_added action) && negb (user_joined action) then (Returns tt, w)
  else if negb en then (Returns tt, w)
  else match user_is_suspicious c u w with
       | (Returns true, w') => (Returns tt, after_take_action c chat (id u) w')
       | (Returns false, w') => (Returns tt, w')
       | (Raises e, w') => (Raises e, w')
       end.
Proof.
  unfold on_chat_action. cbv zeta. rewrite run_bind.
  destruct (user_left action).
  - rewrite is_enabled_run.
    destruct (action_is_group action && detection_enabled (action_chat_id action) (store w))
      eqn:Hen.
    + cbn [andb]. rewrite run_bind. unfold db_delete at 1. cbv beta iota.
      destruct (bool_decide (id (action_user action) = uid c)); [|reflexivity].
      rewrite run_bind. reflexivity.
    + cbn [andb]. destruct (negb (user_added action) && negb (user_joined action));
        [reflexivity|].
      rewrite run_bind, is_enabled_run, Hen. reflexivity.
  - rewrite run_ret. cbn [andb].
    destruct (negb (user_added action) && negb (user_joined action)); [reflexivity|].
    rewrite run_bind, is_enabled_run.
    destruct (action_is_group action && detection_enabled (action_chat_id action) (store w));
      [|reflexivity].
    cbn [negb]. rewrite run_bind.
    destruct (user_is_suspicious c (action_user action) w) as [[[]|e] w']; try reflexivity.
    apply take_action_run.
Qed.

(** X7: for a user with a first name, [profile_check_crypto] never
    raises, and answers true exactly when the lower-cased first name is
    one of the listed names, or [t.me] occurs in the first name or in the
    last name. *)
Theorem profile_check_crypto_verdict (u : user) (fn : string) :
  first_name u = Some fn →
  profile_check_crypto u = Returns (crypto_verdict fn (last_name u))
  ∧ (crypto_verdict fn (last_name u) = true ↔
     In (PyStr.lower fn) suspicious_first_names
     ∨ PyStr.contains fn "t.me" = true
     ∨ ∃ ln, last_name u = Some ln ∧ PyStr.contains ln "t.me" = true).
Proof.
  intros Hfn. split; [apply profile_check_crypto_run, Hfn|].
  unfold crypto_verdict, list_in. rewrite !orb_true_iff, existsb_exists.
  split.
  - intros [[(y & Hin & Hy) | Hc] | Hl].
    + left. apply bool_decide_eq_true_1 in Hy. subst y. exact Hin.
    + right. left. exact Hc.
    + right. right. destruct (last_name u) as [ln|]; [|discriminate Hl].
      exists ln. split; [reflexivity | exact Hl].
  - intros [Hin | [Hc | (ln & Hln & Hl)]].
    + left. left. exists (PyStr.lower fn). split; [exact Hin|].
      apply bool_decide_eq_true_2. reflexivity.
    + left. right. exact Hc.
    + right. rewrite Hln. exact Hl.
Qed.

Lemma profile_check_crypto_verdict_witness :
  profile_check_crypto ScenarioJoin.announcer = Returns true
  ∧ profile_check_crypto ScenarioJoin.ann = Returns false.
Proof.
  split.
  - apply (profile_check_crypto_verdict ScenarioJoin.announcer "ANNOUNCEMENT"). reflexivity.
  - apply (profile_check_crypto_verdict ScenarioJoin.ann "Ann"). reflexivity.
Defined.

(** X8: when the nonsense check answers true, [user_is_suspicious]
    answers true without running the first-name check, so it returns also
    for a user without first name. *)
Theorem user_is_suspicious_short_circuit (c : client) (u : user) (w : world) :
  (profile_check_nonsense c u w).1 = Returns true →
  user_is_suspicious c u w = profile_check_nonsense c u w
  ∧ (user_is_suspicious c u w).1 = Returns true.
Proof.
  intros Hn. rewrite user_is_suspicious_run.
  destruct (profile_check_nonsense c u w) as [[[]|e] w']; simpl in Hn; try discriminate Hn.
  split; reflexivity.
Qed.

Lemma user_is_suspicious_short_circuit_witness :
  first_name ScenarioUsers.nameless = None
  ∧ (user_is_suspicious Scenario.member_client ScenarioUsers.nameless (Scenario.fresh ∅)).1
    = Returns true.
Proof.
  split; [reflexivity|].
  apply (user_is_suspicious_short_circuit Scenario.member_client ScenarioUsers.nameless
           (Scenario.fresh ∅)).
  vm_compute. reflexivity.
Defined.

(** X9: for a user with a first name, whenever the nonsense check
    returns, [user_is_suspicious] returns the disjunction of the two
    checks and leaves the world the nonsense check left. *)
Theorem user_is_suspicious_disjunction
    (c : client) (u : user) (w w' : world) (fn : string) (n : bool) :
  first_name u = Some fn →
  profile_check_nonsense c u w = (Returns n, w') →
  user_is_suspicious c u w = (Returns (n || crypto_verdict fn (last_name u)), w').
Proof.
  intros Hfn Hn. rewrite user_is_suspicious_run, Hn, (profile_check_crypto_run u fn Hfn).
  destruct n; reflexivity.
Qed.

Lemma user_is_suspicious_disjunction_witness :
  user_is_suspicious Scenario.member_client ScenarioJoin.announcer (Scenario.fresh ∅)
  = (Returns true, Scenario.fresh ∅).
Proof.
  apply (user_is_suspicious_disjunction Scenario.member_client ScenarioJoin.announcer
           (Scenario.fresh ∅) (Scenario.fresh ∅) "ANNOUNCEMENT" false);
    vm_compute; reflexivity.
Defined.

(** X10: when the username gate has passed, the user has no avatar and
    the fetch of the extended profile fails, the error is passed on by
    [profile_check_nonsense], by [user_is_suspicious] and by
    [on_chat_action] for the arrival of that user in a group with
    detection enabled; nothing is logged and no action is taken. *)
Theorem full_profile_lookup_error
    (c : client) (u : user) (w : world) (name : string) (e : exn) :
  username u = Some name →
  username_gate name = true →
  user_photo u = false →
  GetFullUserRequest c u = Raises e →
  profile_check_nonsense c u w = (Raises e, w)
  ∧ user_is_suspicious c u w = (Raises e, w)
  ∧ (∀ action : chat_action,
       action_user action = u →
       user_left action = false →
       user_added action = true ∨ user_joined action = true →
       action_is_group action = true →
       detection_enabled (action_chat_id action) (store w) = true →
       on_chat_action c action w = (Raises e, w)).
Proof.
  intros Hname Hgate Hphoto Hfull.
  assert (Hn : profile_check_nonsense c u w = (Raises e, w)).
  { rewrite profile_check_nonsense_unfold, Hname, Hgate, Hphoto, Hfull. reflexivity. }
  assert (Hu : user_is_suspicious c u w = (Raises e, w)).
  { rewrite user_is_suspicious_run, Hn. reflexivity. }
  split; [exact Hn|]. split; [exact Hu|].
  intros action Hau Hleft Hnew Hgroup Hen.
  rewrite on_chat_action_run. cbv zeta. rewrite Hleft, Hgroup, Hen, Hau, Hu.
  destruct Hnew as [-> | ->]; [reflexivity|].
  rewrite andb_false_r. reflexivity.
Qed.

Lemma full_profile_lookup_error_witness :
  on_chat_action ScenarioMore.offline_client (ScenarioUsers.join_of ScenarioUsers.nameless)
                 (Scenario.fresh Scenario.enabled_store)
  = (Raises RPCError, Scenario.fresh Scenario.enabled_store).
Proof.
  destruct (full_profile_lookup_error ScenarioMore.offline_client ScenarioUsers.nameless
              (Scenario.fresh Scenario.enabled_store) "Xkqzpvbtab" RPCError
              eq_refl eq_refl eq_refl eq_refl) as (_ & _ & Hjoin).
  apply Hjoin; [reflexivity | reflexivity | right; reflexivity | reflexivity
               | vm_compute; reflexivity].
Defined.

(** ** The membership handler *)

(** X11: when a user other than the bot leaves a group with detection
    enabled, [on_chat_action] deletes that user's participation flag for
    the group and nothing else: every other key keeps its value, no
    profile check is run and no action is taken, whatever else the event
    says. *)
Theorem on_chat_action_member_leaves (c : client) (action : chat_action) (w : world) :
  user_left action = true →
  action_is_group action = true →
  detection_enabled (action_chat_id action) (store w) = true →
  id (action_user action) ≠ uid c →
  on_chat_action c action w
  = (Returns tt, after_leave (id (action_user action)) (action_chat_id action) w)
  ∧ store (on_chat_action c action w).2
      !! participation_flag (id (action_user action)) (action_chat_id action) = None
  ∧ (∀ r, r ≠ participation_flag (id (action_user action)) (action_chat_id action) →
          store (on_chat_action c action w).2 !! r = store w !! r)
  ∧ calls (on_chat_action c action w).2 = calls w.
Proof.
  intros Hleft Hgroup Hen Hne.
  assert (Hrun : on_chat_action c action w
    = (Returns tt, after_leave (id (action_user action)) (action_chat_id action) w)).
  { rewrite on_chat_action_run. cbv zeta. rewrite Hleft, Hgroup, Hen.
    rewrite bool_decide_eq_false_2 by exact Hne. reflexivity. }
  rewrite Hrun. unfold after_leave. cbn [snd store calls].
  repeat split.
  - apply lookup_delete_eq.
  - intros r Hr. apply lookup_delete_ne. congruence.
Qed.

Lemma on_chat_action_member_leaves_witness :
  on_chat_action Scenario.member_client (ScenarioJoin.leave_of ScenarioUsers.nameless)
                 (Scenario.fresh ScenarioDeparture.active_store)
  = (Returns tt,
     mkWorld Scenario.enabled_store [Delete "users.7.has_spoken_in_5"] [] []).
Proof.
  destruct (on_chat_action_member_leaves Scenario.member_client
              (ScenarioJoin.leave_of ScenarioUsers.nameless)
              (Scenario.fresh ScenarioDeparture.active_store)
              eq_refl eq_refl) as (Hrun & _).
  - vm_compute. reflexivity.
  - vm_compute. discriminate.
  - rewrite Hrun. vm_compute. reflexivity.
Defined.

(** X12: [on_chat_action] ignores every membership event outside a
    group or in a group where detection is not enabled, and every event
    that is neither a departure nor an arrival. *)
Theorem on_chat_action_ignored (c : client) (action : chat_action) (w : world) :
  action_is_group action = false
  ∨ detection_enabled (action_chat_id action) (store w) = false
  ∨ (user_left action = false ∧ user_added action = false ∧ user_joined action = false) →
  on_chat_action c action w = (Returns tt, w).
Proof.
  intros Hcase. rewrite on_chat_action_run. cbv zeta.
  assert (Hoff : action_is_group action
                 && detection_enabled (action_chat_id action) (store w) = false
                 ∨ (user_left action = false ∧ user_added action = false
                    ∧ user_joined action = false)).
  { destruct Hcase as [-> | [-> | H]]; [left; reflexivity | left | right; exact H].
    apply andb_false_r. }
  destruct Hoff as [-> | (-> & -> & ->)].
  - rewrite andb_false_r. destruct (negb _ && negb _); reflexivity.
  - reflexivity.
Qed.

Lemma on_chat_action_ignored_witness :
  on_chat_action ScenarioMore.offline_client (ScenarioUsers.join_of ScenarioUsers.nameless)
                 (Scenario.fresh ∅)
  = (Returns tt, Scenario.fresh ∅)
  ∧ on_chat_action ScenarioMore.offline_client
                   (ScenarioJoin.title_change ScenarioUsers.nameless)
                   (Scenario.fresh Scenario.enabled_store)
    = (Returns tt, Scenario.fresh Scenario.enabled_store).
Proof.
  split.
  - apply (on_chat_action_ignored ScenarioMore.offline_client
             (ScenarioUsers.join_of ScenarioUsers.nameless) (Scenario.fresh ∅)).
    right. left. vm_compute. reflexivity.
  - apply (on_chat_action_ignored ScenarioMore.offline_client
             (ScenarioJoin.title_change ScenarioUsers.nameless)
             (Scenario.fresh Scenario.enabled_store)).
    right. right. repeat split; reflexivity.
Defined.

(** The profile checks never touch the store, and a negative answer
    leaves the whole world as it was. *)
Lemma user_is_suspicious_world (c : client) (u : user) (w : world) :
  store (user_is_suspicious c u w).2 = store w
  ∧ writes (user_is_suspicious c u w).2 = writes w
  ∧ calls (user_is_suspicious c u w).2 = calls w
  ∧ ((user_is_suspicious c u w).1 = Returns false → (user_is_suspicious c u w).2 = w).
Proof.
  rewrite user_is_suspicious_run, profile_check_nonsense_unfold.
  repeat case_match; simplify_eq; cbn [fst snd store writes calls];
    repeat split; reflexivity || discriminate.
Qed.

(** X13: for the arrival of a user in a group with detection enabled,
    [on_chat_action] takes action against that user exactly when
    [user_is_suspicious] answers true; the store is not written in either
    case. *)
Theorem on_chat_action_arrival (c : client) (action : chat_action) (w : world) :
  user_left action = false →
  user_added action = true ∨ user_joined action = true →
  action_is_group action = true →
  detection_enabled (action_chat_id action) (store w) = true →
  ((user_is_suspicious c (action_user action) w).1 = Returns true →
   on_chat_action c action w
   = (Returns tt,
      after_take_action c (action_chat_id action) (id (action_user action))
                        (user_is_suspicious c (action_user action) w).2)
   ∧ KickParticipant (action_chat_id action) (id (action_user action))
     ∈ calls (on_chat_action c action w).2)
  ∧ ((user_is_suspicious c (action_user action) w).1 = Returns false →
     on_chat_action c action w = (Returns tt, w))
  ∧ store (on_chat_action c action w).2 = store w
  ∧ writes (on_chat_action c action w).2 = writes w.
Proof.
  intros Hleft Hnew Hgroup Hen.
  rewrite on_chat_action_run. cbv zeta. rewrite Hleft, Hgroup, Hen.
  assert (Harrival : negb (user_added action) && negb (user_joined action) = false).
  { destruct Hnew as [Ha | Hj]; [rewrite Ha | rewrite Hj, andb_false_r]; reflexivity. }
  rewrite Harrival. cbn [andb negb].
  destruct (user_is_suspicious_world c (action_user action) w) as (Hs & Hwr & _ & Hpure).
  destruct (user_is_suspicious c (action_user action) w) as [[[]|e] w'];
    cbn [fst snd] in *.
  - split; [|split; [|split]].
    + intros _. split; [reflexivity|].
      unfold after_take_action. cbn [calls]. apply elem_of_app. right.
      apply elem_of_cons. right. apply elem_of_cons. right.
      apply elem_of_cons. left. reflexivity.
    + intros Hfalse. discriminate Hfalse.
    + exact Hs.
    + exact Hwr.
  - rewrite (Hpure eq_refl). split; [|split; [|split]]; try reflexivity.
    intros Htrue. discriminate Htrue.
  - split; [|split; [|split]].
    + intros Htrue. discriminate Htrue.
    + intros Hfalse. discriminate Hfalse.
    + exact Hs.
    + exact Hwr.
Qed.

Lemma on_chat_action_arrival_witness :
  on_chat_action Scenario.member_client (ScenarioUsers.join_of ScenarioJoin.announcer)
                 (Scenario.fresh Scenario.enabled_store)
  = (Returns tt,
     after_take_action Scenario.member_client 5 9 (Scenario.fresh Scenario.enabled_store))
  ∧ on_chat_action Scenario.member_client (ScenarioUsers.join_of ScenarioJoin.ann)
                   (Scenario.fresh Scenario.enabled_store)
    = (Returns tt, Scenario.fresh Scenario.enabled_store).
Proof.
  split.
  - destruct (on_chat_action_arrival Scenario.member_client
                (ScenarioUsers.join_of ScenarioJoin.announcer)
                (Scenario.fresh Scenario.enabled_store) eq_refl (or_intror eq_refl) eq_refl)
      as (Htrue & _).
    + vm_compute. reflexivity.
    + apply Htrue. vm_compute. reflexivity.
  - apply (on_chat_action_arrival Scenario.member_client
             (ScenarioUsers.join_of ScenarioJoin.ann)
             (Scenario.fresh Scenario.enabled_store));
      try (vm_compute; reflexivity). right. reflexivity.
Defined.

(** ** The toggle command *)

Lemma cmd_antibot_toggle_on_run (c : client) (msg : message) (w : world) :
  is_group msg = true →
  is_channel msg = true →
  detection_enabled (chat_id msg) (store w) = false →
  cmd_antibot c msg w =
  match GetParticipantRequest c (chat_id msg) (uid c) with
  | Raises e => (Raises e, w)
  | Returns ptcp =>
      match missing_permissions ptcp with
      | Some refusal => (Returns refusal, w)
      | None =>
          (Returns (status_line true),
           mkWorld
             (<["groups." +:+ PyStr.of_int (chat_id msg) +:+ ".enable_time"
                := VInt (time_sec c)]>
                (<["groups." +:+ PyStr.of_int (chat_id msg) +:+ ".enabled" := VBool true]>
                   (store w)))
             (writes w
              ++ [Put ("groups." +:+ PyStr.of_int (chat_id msg) +:+ ".enabled") (VBool true);
                  Put ("groups." +:+ PyStr.of_int (chat_id msg) +:+ ".enable_time")
                      (VInt (time_sec c))])
             (log w) (calls w))
      end
  end.
Proof.
  intros Hgroup Hchannel Hoff.
  unfold cmd_antibot. rewrite Hgroup, Hchannel.
  change (negb true) with false. cbv iota.
  rewrite run_bind. unfold db_get at 1. cbv iota beta.
  replace (truthy (DB.get group_db (PyStr.of_int (chat_id msg) +:+ ".enabled")
                          (VBool false) (store w))) with false.
  2:{ symmetry. unfold detection_enabled in Hoff. unfold DB.get, group_db.
      destruct (store w !! _); [exact Hoff | reflexivity]. }
  change (negb false) with true. cbv iota.
  rewrite run_bind. unfold lift.
  destruct (GetParticipantRequest c (chat_id msg) (uid c)) as [ptcp|e]; [|reflexivity].
  destruct (missing_permissions ptcp); [reflexivity|].
  cbv [mbind M_bind mret M_ret db_put DB.put group_db store writes log calls].
  rewrite <- app_assoc. reflexivity.
Qed.

Lemma cmd_antibot_toggle_off_run (c : client) (msg : message) (w : world) :
  is_group msg = true →
  is_channel msg = true →
  detection_enabled (chat_id msg) (store w) = true →
  cmd_antibot c msg w =
  (Returns (status_line false),
   mkWorld (cleared (chat_id msg) (store w))
           (writes w
            ++ map Delete (group_keys (chat_id msg) (store w))
            ++ map Delete (flag_keys (chat_id msg)
                             (delete_keys (group_keys (chat_id msg) (store w)) (store w))))
           (log w) (calls w)).
Proof.
  intros Hgroup Hchannel Hen.
  unfold cmd_antibot. rewrite Hgroup, Hchannel.
  change (negb true) with false. cbv iota.
  rewrite run_bind. unfold db_get at 1. cbv iota beta.
  replace (truthy (DB.get group_db (PyStr.of_int (chat_id msg) +:+ ".enabled")
                          (VBool false) (store w))) with true.
  2:{ symmetry. unfold detection_enabled in Hen. unfold DB.get, group_db.
      destruct (store w !! _); [exact Hen | discriminate Hen]. }
  change (negb true) with false. cbv iota.
  rewrite run_bind, clear_group_run. reflexivity.
Qed.

Lemma cmd_antibot_wrong_chat_run (c : client) (msg : message) (w : world) :
  (is_group msg = false →
   cmd_antibot c msg w = (Returns "__Antibot can only be used in groups.__", w))
  ∧ (is_group msg = true → is_channel msg = false →
     cmd_antibot c msg w
     = (Returns "__Please convert this group to a supergroup in order to enable antibot.__",
        w)).
Proof.
  unfold cmd_antibot. split.
  - intros ->. reflexivity.
  - intros -> ->. reflexivity.
Qed.

(** X14: outside a group, and in a group that is not a supergroup, the
    toggle command only answers with an explanation: the store is neither
    read for the toggle nor written, and the client is not consulted. *)
Theorem cmd_antibot_wrong_chat (c : client) (msg : message) (w : world) :
  (is_group msg = false →
   cmd_antibot c msg w = (Returns "__Antibot can only be used in groups.__", w))
  ∧ (is_group msg = true → is_channel msg = false →
     cmd_antibot c msg w
     = (Returns "__Please convert this group to a supergroup in order to enable antibot.__",
        w)).
Proof. exact (cmd_antibot_wrong_chat_run c msg w). Qed.

Lemma cmd_antibot_wrong_chat_witness :
  cmd_antibot ScenarioMore.offline_client
    (mkMessage false (Some 140) false false None None 7 5 false false)
    (Scenario.fresh Scenario.enabled_store)
  = (Returns "__Antibot can only be used in groups.__",
     Scenario.fresh Scenario.enabled_store)
  ∧ cmd_antibot ScenarioMore.offline_client
      (mkMessage false (Some 140) false false None None 7 5 true false)
      (Scenario.fresh Scenario.enabled_store)
    = (Returns "__Please convert this group to a supergroup in order to enable antibot.__",
       Scenario.fresh Scenario.enabled_store).
Proof.
  split.
  - apply (cmd_antibot_wrong_chat ScenarioMore.offline_client
             (mkMessage false (Some 140) false false None None 7 5 false false)
             (Scenario.fresh Scenario.enabled_store)).
    reflexivity.
  - apply (cmd_antibot_wrong_chat ScenarioMore.offline_client
             (mkMessage false (Some 140) false false None None 7 5 true false)
             (Scenario.fresh Scenario.enabled_store)); reflexivity.
Defined.

(** X15: when the lookup of the bot's own participant record fails
    during a toggle-on, the error is passed on and nothing is stored;
    a toggle-off does not look the record up, so it succeeds also when the
    lookup would fail. *)
Theorem cmd_antibot_lookup_error (c : client) (msg : message) (w : world) (e : exn) :
  is_group msg = true →
  is_channel msg = true →
  GetParticipantRequest c (chat_id msg) (uid c) = Raises e →
  (detection_enabled (chat_id msg) (store w) = false →
   cmd_antibot c msg w = (Raises e, w))
  ∧ (detection_enabled (chat_id msg) (store w) = true →
     (cmd_antibot c msg w).1 = Returns "Antibot is now **disabled** in this group."
     ∧ store (cmd_antibot c msg w).2 = cleared (chat_id msg) (store w)).
Proof.
  intros Hgroup Hchannel Hp. split.
  - intros Hoff. rewrite (cmd_antibot_toggle_on_run c msg w Hgroup Hchannel Hoff), Hp.
    reflexivity.
  - intros Hen. rewrite (cmd_antibot_toggle_off_run c msg w Hgroup Hchannel Hen).
    split; reflexivity.
Qed.

Lemma cmd_antibot_lookup_error_witness :
  cmd_antibot ScenarioMore.offline_client (Scenario.spam_at 120) (Scenario.fresh ∅)
  = (Raises RPCError, Scenario.fresh ∅)
  ∧ (cmd_antibot ScenarioMore.offline_client (Scenario.spam_at 120)
                 (Scenario.fresh Scenario.enabled_store)).1
    = Returns "Antibot is now **disabled** in this group.".
Proof.
  destruct (cmd_antibot_lookup_error ScenarioMore.offline_client (Scenario.spam_at 120)
              (Scenario.fresh ∅) RPCError eq_refl eq_refl eq_refl) as [Hon _].
  destruct (cmd_antibot_lookup_error ScenarioMore.offline_client (Scenario.spam_at 120)
              (Scenario.fresh Scenario.enabled_store) RPCError eq_refl eq_refl eq_refl)
    as [_ Hoff].
  split.
  - apply Hon. vm_compute. reflexivity.
  - apply Hoff. vm_compute. reflexivity.
Defined.

(** ** More facts on strings and keys *)

Section KeyFacts.

Lemma append_assoc (a b c : string) : (a +:+ b) +:+ c = a +:+ (b +:+ c).
Proof.
  induction a as [|ch a IH]; [reflexivity|].
  change (String ch ((a +:+ b) +:+ c) = String ch (a +:+ (b +:+ c))).
  f_equal. exact IH.
Qed.

Lemma append_cons (ch : ascii) (a b : string) : String ch a +:+ b = String ch (a +:+ b).
Proof. reflexivity. Qed.

Lemma append_inj_l (a x y : string) : a +:+ x = a +:+ y → x = y.
Proof.
  induction a as [|ch a IH]; intros H; [exact H|].
  rewrite !append_cons in H. injection H as H. exact (IH H).
Qed.

Lemma append_nil_r (p : string) : p +:+ "" = p.
Proof.
  induction p as [|ch p IH]; [reflexivity|].
  rewrite append_cons, IH. reflexivity.
Qed.

Lemma startswith_app (p t : string) : PyStr.startswith (p +:+ t) p = true.
Proof.
  induction p as [|ch p IH]; [apply startswith_empty|].
  rewrite append_cons. cbn [PyStr.startswith]. rewrite Ascii.eqb_refl. exact IH.
Qed.

Lemma startswith_iff (s p : string) :
  PyStr.startswith s p = true ↔ ∃ t, s = p +:+ t.
Proof.
  split.
  - intros H. exists (PyStr.drop (String.length p) s).
    apply (startswith_app_inv s p ""). rewrite append_nil_r. exact H.
  - intros [t ->]. apply startswith_app.
Qed.

Lemma endswith_iff (s suf : string) :
  PyStr.endswith s suf = true ↔ ∃ pre, s = pre +:+ suf.
Proof.
  split.
  - induction s as [|ch s IH]; cbn [PyStr.endswith].
    + destruct (String.eqb "" suf) eqn:Heq; [|discriminate].
      apply String.eqb_eq in Heq as <-. intros _. exists "". reflexivity.
    + destruct (String.eqb (String ch s) suf) eqn:Heq.
      * apply String.eqb_eq in Heq as <-. intros _. exists "". reflexivity.
      * intros H. destruct (IH H) as [pre ->]. exists (String ch pre). reflexivity.
  - intros [pre ->]. apply endswith_app.
Qed.

Lemma dotless_app (a b : string) : dotless (a +:+ b) = dotless a && dotless b.
Proof.
  induction a as [|ch a IH]; [reflexivity|].
  rewrite append_cons. cbn [dotless]. rewrite IH, andb_assoc. reflexivity.
Qed.

(** A key of the shape [a.x] with dotless [a] and [x] splits at its only
    separator. *)
Lemma split_at_dot (a x pre y : string) :
  dotless a = true → dotless x = true →
  a +:+ "." +:+ x = pre +:+ "." +:+ y →
  pre = a ∧ x = y.
Proof.
  revert pre. induction a as [|ch a IH]; intros pre Ha Hx Heq.
  - destruct pre as [|ch' pre].
    + split; [reflexivity|]. cbv [String.append] in Heq. injection Heq as Heq. exact Heq.
    + change ("" +:+ "." +:+ x) with (String "." x) in Heq.
      rewrite append_cons in Heq. injection Heq as _ Heq.
      rewrite Heq, dotless_app in Hx. 
      apply andb_prop in Hx as [_ Hx]. discriminate Hx.
  - cbn [dotless] in Ha. apply andb_prop in Ha as [Hch Ha].
    destruct pre as [|ch' pre].
    + change ("" +:+ "." +:+ y) with (String "." y) in Heq.
      rewrite append_cons in Heq. injection Heq as Hc _. subst ch.
      discriminate Hch.
    + rewrite !append_cons in Heq. injection Heq as -> Heq.
      destruct (IH pre Ha Hx Heq) as [-> ->]. split; reflexivity.
Qed.

Lemma pretty_N_go_dotless (x : N) (s : string) :
  dotless s = true → dotless (pretty_N_go x s) = true.
Proof.
  revert s. induction (N.lt_wf_0 x) as [x _ IH]. intros s Hs.
  destruct (decide (0 < x)%N) as [Hpos|Hzero].
  - rewrite pretty_N_go_step by exact Hpos. apply IH.
    + apply N.div_lt; [exact Hpos | reflexivity].
    + cbn [dotless]. rewrite Hs, andb_true_r.
      unfold pretty_N_char. repeat case_match; reflexivity.
  - replace x with 0%N by lia. rewrite pretty_N_go_0. exact Hs.
Qed.

Lemma of_int_dotless (n : Z) : dotless (PyStr.of_int n) = true.
Proof.
  assert (Hpos : ∀ p : positive, dotless (pretty p) = true).
  { intros p. unfold pretty, pretty_positive, pretty, pretty_N.
    case_decide; [reflexivity|]. apply pretty_N_go_dotless. reflexivity. }
  unfold PyStr.of_int, pretty, pretty_Z. destruct n as [|p|p].
  - reflexivity.
  - apply Hpos.
  - rewrite dotless_app. rewrite Hpos. reflexivity.
Qed.

Lemma of_int_inj (m n : Z) : PyStr.of_int m = PyStr.of_int n → m = n.
Proof. unfold PyStr.of_int. apply pretty_Z_inj. Qed.

(** Keys of different groups are different keys. *)
Lemma group_prefix_inj (g g' : Z) (x : string) :
  dotless x = true →
  PyStr.startswith (PyStr.of_int g' +:+ "." +:+ x) (PyStr.of_int g +:+ ".") = true →
  g' = g.
Proof.
  intros Hx Hpre. apply startswith_iff in Hpre as [t Ht].
  rewrite append_assoc in Ht.
  destruct (split_at_dot (PyStr.of_int g') x (PyStr.of_int g) t
              (of_int_dotless g') Hx Ht) as [Heq _].
  symmetry. apply of_int_inj, Heq.
Qed.

Lemma flag_suffix_inj (u g g' : Z) :
  PyStr.endswith (has_spoken_key u g') (".has_spoken_in_" +:+ PyStr.of_int g) = true →
  g' = g.
Proof.
  intros Hsuf. apply endswith_iff in Hsuf as [pre Hpre].
  unfold has_spoken_key in Hpre.
  change (".has_spoken_in_" +:+ PyStr.of_int g')
    with ("." +:+ "has_spoken_in_" +:+ PyStr.of_int g') in Hpre.
  change (".has_spoken_in_" +:+ PyStr.of_int g)
    with ("." +:+ "has_spoken_in_" +:+ PyStr.of_int g) in Hpre.
  destruct (split_at_dot (PyStr.of_int u) ("has_spoken_in_" +:+ PyStr.of_int g') pre
              ("has_spoken_in_" +:+ PyStr.of_int g) (of_int_dotless u)) as [_ Heq].
  - rewrite dotless_app, of_int_dotless. reflexivity.
  - exact Hpre.
  - apply append_inj_l in Heq. apply of_int_inj, Heq.
Qed.

End KeyFacts.

(** ** What [clear_group] deletes and what it keeps *)

Lemma drop_users (k : string) : PyStr.drop 6 ("users." +:+ k) = k.
Proof. exact (drop_app "users." k). Qed.

Lemma group_keys_elem (g : Z) (s : gmap string value) (r : string) :
  r ∈ group_keys g s →
  PyStr.startswith r ("groups." +:+ PyStr.of_int g +:+ ".") = true.
Proof.
  unfold group_keys, selected_keys. intros Hin.
  apply list_elem_of_omap in Hin as ([k v] & Hin & Hsel).
  cbn [fst] in Hsel. injection Hsel as <-.
  apply iterator_elem_inv in Hin as [_ Hk].
  unfold group_db. rewrite startswith_app_app. exact Hk.
Qed.

Lemma flag_keys_elem (g : Z) (s : gmap string value) (r : string) :
  r ∈ flag_keys g s →
  PyStr.startswith r "users." = true
  ∧ PyStr.endswith (PyStr.drop 6 r) (".has_spoken_in_" +:+ PyStr.of_int g) = true.
Proof.
  unfold flag_keys, selected_keys. intros Hin.
  apply list_elem_of_omap in Hin as ([k v] & _ & Hsel).
  cbn [fst] in Hsel.
  destruct (PyStr.endswith k (".has_spoken_in_" +:+ PyStr.of_int g)) eqn:Hk;
    [|discriminate Hsel].
  injection Hsel as <-. unfold user_db. split.
  - apply startswith_app.
  - rewrite drop_users. exact Hk.
Qed.

Lemma cleared_targeted (g : Z) (s : gmap string value) (r : string) :
  targeted g r = true → cleared g s !! r = None.
Proof.
  unfold targeted. intros Ht. apply orb_prop in Ht as [Hgroup | Hflag].
  - apply (startswith_app_inv r "groups." (PyStr.of_int g +:+ ".")) in Hgroup
      as [Hr Hk].
    rewrite Hr. apply (cleared_purged g s), Hk.
  - apply andb_prop in Hflag as [Husers Hsuf].
    rewrite <- (append_nil_r "users.") in Husers.
    apply (startswith_app_inv r "users." "") in Husers as [Hr _].
    change (String.length "users.") with 6%nat in Hr.
    set (k := PyStr.drop 6 r) in *. rewrite Hr. unfold cleared.
    set (s1 := delete_keys (group_keys g s) s).
    destruct (s1 !! ("users." +:+ k)) as [v|] eqn:Hs.
    + apply delete_keys_lookup_in. unfold flag_keys, selected_keys.
      apply list_elem_of_omap. exists (k, v). split.
      * apply iterator_elem; [exact Hs | apply startswith_empty].
      * cbn [fst]. rewrite Hsuf. reflexivity.
    + apply delete_keys_lookup_None, Hs.
Qed.

Lemma cleared_untargeted (g : Z) (s : gmap string value) (r : string) :
  targeted g r = false → cleared g s !! r = s !! r.
Proof.
  unfold targeted. intros Ht. apply orb_false_elim in Ht as [Hgroup Hflag].
  apply cleared_frame.
  - intros Hin. apply group_keys_elem in Hin. congruence.
  - intros Hin. apply flag_keys_elem in Hin as [Hu Hsuf].
    rewrite Hu, Hsuf in Hflag. discriminate Hflag.
Qed.

Lemma cleared_lookup (g : Z) (s : gmap string value) (r : string) :
  cleared g s !! r = if targeted g r then None else s !! r.
Proof.
  destruct (targeted g r) eqn:Ht;
    [apply cleared_targeted | apply cleared_untargeted]; exact Ht.
Qed.

Lemma targeted_other_group (g g' : Z) (x : string) :
  g' ≠ g → dotless x = true →
  targeted g ("groups." +:+ PyStr.of_int g' +:+ "." +:+ x) = false.
Proof.
  intros Hne Hx. unfold targeted. apply orb_false_intro.
  - rewrite startswith_app_app.
    destruct (PyStr.startswith _ _) eqn:Hpre; [|reflexivity].
    apply group_prefix_inj in Hpre; [contradiction | exact Hx].
  - reflexivity.
Qed.

Lemma targeted_other_flag (g g' u : Z) :
  g' ≠ g → targeted g (participation_flag u g') = false.
Proof.
  intros Hne. unfold targeted. apply orb_false_intro; [reflexivity|].
  apply andb_false_intro2.
  change (participation_flag u g') with ("users." +:+ has_spoken_key u g').
  rewrite drop_users.
  destruct (PyStr.endswith _ _) eqn:Hsuf; [|reflexivity].
  apply flag_suffix_inj in Hsuf. contradiction.
Qed.

Lemma cleared_other_group (g g' : Z) (s : gmap string value) :
  g' ≠ g →
  detection_enabled g' (cleared g s) = detection_enabled g' s
  ∧ enableTime g' (cleared g s) = enableTime g' s
  ∧ (∀ u, cleared g s !! participation_flag u g' = s !! participation_flag u g').
Proof.
  intros Hne. split; [|split].
  - unfold detection_enabled.
    change (".enabled") with ("." +:+ "enabled").
    rewrite cleared_untargeted; [reflexivity|].
    apply targeted_other_group; [exact Hne | reflexivity].
  - unfold enableTime.
    change (".enable_time") with ("." +:+ "enable_time").
    rewrite cleared_untargeted; [reflexivity|].
    apply targeted_other_group; [exact Hne | reflexivity].
  - intros u. apply cleared_untargeted, targeted_other_flag, Hne.
Qed.

Lemma cleared_disabled (g : Z) (s : gmap string value) :
  detection_enabled g (cleared g s) = false.
Proof.
  unfold detection_enabled.
  rewrite (proj1 (cleared_purged g s) (PyStr.of_int g +:+ ".enabled")); [reflexivity|].
  change (".enabled") with ("." +:+ "enabled").
  rewrite <- append_assoc. apply startswith_app.
Qed.

(** X16: [clear_group] always returns, and the store it leaves is the
    old store without the keys of the groups view under the group's
    prefix and without the keys of the users view that end with the
    group's flag suffix; every other key keeps its value, and nothing is
    logged or called. *)
Theorem clear_group_exact (g : Z) (w : world) :
  (clear_group g w).1 = Returns tt
  ∧ (∀ r, store (clear_group g w).2 !! r
          = if targeted g r then None else store w !! r)
  ∧ log (clear_group g w).2 = log w
  ∧ calls (clear_group g w).2 = calls w.
Proof.
  rewrite clear_group_run. cbn [fst snd store log calls].
  split; [reflexivity|]. split; [|split; reflexivity].
  intros r. apply cleared_lookup.
Qed.

(** X17: clearing one group leaves every other group as it was: its
    enabled flag, its enable time and the participation flags of its
    users. *)
Theorem clear_group_other_groups (g g' : Z) (w : world) :
  g' ≠ g →
  detection_enabled g' (store (clear_group g w).2) = detection_enabled g' (store w)
  ∧ enableTime g' (store (clear_group g w).2) = enableTime g' (store w)
  ∧ (∀ u, store (clear_group g w).2 !! participation_flag u g'
          = store w !! participation_flag u g').
Proof.
  intros Hne. rewrite clear_group_run. cbn [snd store].
  apply cleared_other_group, Hne.
Qed.

Lemma clear_group_other_groups_witness :
  detection_enabled 6 (store (clear_group 5 (Scenario.fresh ScenarioMore.two_groups_store)).2)
  = true
  ∧ enableTime 6 (store (clear_group 5 (Scenario.fresh ScenarioMore.two_groups_store)).2)
    = Some 50
  ∧ store (clear_group 5 (Scenario.fresh ScenarioMore.two_groups_store)).2
      !! participation_flag 7 6 = Some (VBool true).
Proof.
  destruct (clear_group_other_groups 5 6 (Scenario.fresh ScenarioMore.two_groups_store))
    as (Hen & Htime & Hflag).
  - lia.
  - rewrite Hen, Htime, (Hflag 7). vm_compute. repeat split; reflexivity.
Defined.

(** X18: clearing a group twice is the same as clearing it once: the
    second run finds nothing to delete. *)
Theorem clear_group_idempotent (g : Z) (w : world) :
  store (clear_group g (clear_group g w).2).2 = store (clear_group g w).2
  ∧ writes (clear_group g (clear_group g w).2).2 = writes (clear_group g w).2.
Proof.
  rewrite !clear_group_run. cbn [snd store writes].
  set (s1 := cleared g (store w)).
  assert (Hg : group_keys g s1 = []).
  { apply elem_of_nil_inv. intros r Hin.
    pose proof (group_keys_elem g s1 r Hin) as Hpre.
    unfold group_keys, selected_keys in Hin.
    apply list_elem_of_omap in Hin as ([k v] & Hin & Hsel).
    cbn [fst] in Hsel. injection Hsel as <-.
    apply iterator_elem_inv in Hin as [Hs _].
    unfold s1 in Hs. rewrite cleared_targeted in Hs; [discriminate Hs|].
    unfold targeted. rewrite Hpre. reflexivity. }
  assert (Hf : flag_keys g s1 = []).
  { apply elem_of_nil_inv. intros r Hin.
    pose proof (flag_keys_elem g s1 r Hin) as [Hu Hsuf].
    unfold flag_keys, selected_keys in Hin.
    apply list_elem_of_omap in Hin as ([k v] & Hin & Hsel).
    cbn [fst] in Hsel.
    destruct (PyStr.endswith k _); [|discriminate Hsel]. injection Hsel as <-.
    apply iterator_elem_inv in Hin as [Hs _].
    unfold s1 in Hs. rewrite cleared_targeted in Hs; [discriminate Hs|].
    unfold targeted. rewrite Hu, Hsuf. apply orb_true_r. }
  unfold cleared at 1. rewrite Hg. cbn [delete_keys foldl]. rewrite Hf.
  cbn [delete_keys foldl map]. rewrite !app_nil_r. split; reflexivity.
Qed.

(** ** The life cycle of a group *)

Lemma group_field_inj (g g' : Z) (x y : string) :
  dotless x = true →
  "groups." +:+ PyStr.of_int g +:+ "." +:+ x = "groups." +:+ PyStr.of_int g' +:+ "." +:+ y →
  g = g' ∧ x = y.
Proof.
  intros Hx Heq. apply append_inj_l in Heq.
  destruct (split_at_dot (PyStr.of_int g) x (PyStr.of_int g') y (of_int_dotless g) Hx Heq)
    as [Hg Hxy].
  split; [symmetry; apply of_int_inj, Hg | exact Hxy].
Qed.

Lemma enabled_after_toggle_on (g : Z) (now : Z) (s : gmap string value) :
  detection_enabled g
    (<["groups." +:+ PyStr.of_int g +:+ ".enable_time" := VInt now]>
       (<["groups." +:+ PyStr.of_int g +:+ ".enabled" := VBool true]> s)) = true
  ∧ enableTime g
      (<["groups." +:+ PyStr.of_int g +:+ ".enable_time" := VInt now]>
         (<["groups." +:+ PyStr.of_int g +:+ ".enabled" := VBool true]> s)) = Some now.
Proof.
  unfold detection_enabled, enableTime. split.
  - rewrite lookup_insert_ne, lookup_insert_eq; [reflexivity|].
    intros Heq.
    apply (group_field_inj g g "enable_time" "enabled" eq_refl) in Heq as [_ Heq].
    discriminate Heq.
  - rewrite lookup_insert_eq. reflexivity.
Qed.

Lemma other_group_after_toggle_on (g g' : Z) (now : Z) (s : gmap string value) :
  g' ≠ g →
  detection_enabled g'
    (<["groups." +:+ PyStr.of_int g +:+ ".enable_time" := VInt now]>
       (<["groups." +:+ PyStr.of_int g +:+ ".enabled" := VBool true]> s))
  = detection_enabled g' s
  ∧ enableTime g'
      (<["groups." +:+ PyStr.of_int g +:+ ".enable_time" := VInt now]>
         (<["groups." +:+ PyStr.of_int g +:+ ".enabled" := VBool true]> s))
    = enableTime g' s.
Proof.
  intros Hne. unfold detection_enabled, enableTime.
  split; rewrite !lookup_insert_ne; try reflexivity; intros Heq.
  - apply (group_field_inj g g' "enabled" "enabled" eq_refl) in Heq as [Heq _].
    congruence.
  - apply (group_field_inj g g' "enable_time" "enabled" eq_refl) in Heq as [Heq _].
    congruence.
  - apply (group_field_inj g g' "enabled" "enable_time" eq_refl) in Heq as [Heq _].
    congruence.
  - apply (group_field_inj g g' "enable_time" "enable_time" eq_refl) in Heq as [Heq _].
    congruence.
Qed.

(** X19: the toggle alternates.  From a group with detection off and a
    bot with the required rights, a first toggle enables detection and
    records the clock as enable time; a second toggle, by any client,
    disables it and leaves the group purged; a third toggle enables it
    again with the enable time of that moment. *)
Theorem cmd_antibot_alternates
    (c c' c'' : client) (msg : message) (w : world) (ptcp ptcp'' : participant) :
  is_group msg = true →
  is_channel msg = true →
  detection_enabled (chat_id msg) (store w) = false →
  GetParticipantRequest c (chat_id msg) (uid c) = Returns ptcp →
  has_required_rights ptcp = true →
  GetParticipantRequest c'' (chat_id msg) (uid c'') = Returns ptcp'' →
  has_required_rights ptcp'' = true →
  let w1 := (cmd_antibot c msg w).2 in
  let w2 := (cmd_antibot c' msg w1).2 in
  let w3 := (cmd_antibot c'' msg w2).2 in
  (detection_enabled (chat_id msg) (store w1) = true
   ∧ enableTime (chat_id msg) (store w1) = Some (time_sec c))
  ∧ ((cmd_antibot c' msg w1).1 = Returns "Antibot is now **disabled** in this group."
     ∧ detection_enabled (chat_id msg) (store w2) = false
     ∧ purged (chat_id msg) (store w2))
  ∧ ((cmd_antibot c'' msg w2).1 = Returns "Antibot is now **enabled** in this group."
     ∧ detection_enabled (chat_id msg) (store w3) = true
     ∧ enableTime (chat_id msg) (store w3) = Some (time_sec c'')).
Proof.
  intros Hgroup Hchannel Hoff Hp Hrights Hp'' Hrights''. cbv zeta.
  assert (Hnone : ∀ p, has_required_rights p = true → missing_permissions p = None).
  { intros p Hr. pose proof (missing_permissions_spec p) as Hm.
    rewrite Hr in Hm. exact Hm. }
  rewrite (cmd_antibot_toggle_on_run c msg w Hgroup Hchannel Hoff), Hp,
    (Hnone ptcp Hrights). cbn [snd store].
  destruct (enabled_after_toggle_on (chat_id msg) (time_sec c) (store w)) as [Hen1 Htime1].
  split; [split; assumption|].
  set (w1 := mkWorld _ _ _ _).
  rewrite (cmd_antibot_toggle_off_run c' msg w1 Hgroup Hchannel Hen1). cbn [fst snd store].
  set (w2 := mkWorld _ _ _ _).
  assert (Hoff2 : detection_enabled (chat_id msg) (store w2) = false)
    by apply cleared_disabled.
  split; [split; [reflexivity | split; [exact Hoff2 | apply cleared_purged]]|].
  rewrite (cmd_antibot_toggle_on_run c'' msg w2 Hgroup Hchannel Hoff2), Hp'',
    (Hnone ptcp'' Hrights''). cbn [fst snd store].
  split; [reflexivity|]. apply enabled_after_toggle_on.
Qed.

Lemma cmd_antibot_alternates_witness :
  enableTime 5 (store (cmd_antibot Scenario.creator_client (Scenario.spam_at 120)
                                   (Scenario.fresh ∅)).2) = Some 5000
  ∧ detection_enabled 5
      (store (cmd_antibot ScenarioMore.offline_client (Scenario.spam_at 120)
                (cmd_antibot Scenario.creator_client (Scenario.spam_at 120)
                             (Scenario.fresh ∅)).2).2) = false.
Proof.
  assert (Hoff : detection_enabled (chat_id (Scenario.spam_at 120))
                                   (store (Scenario.fresh ∅)) = false)
    by (vm_compute; reflexivity).
  pose proof (cmd_antibot_alternates Scenario.creator_client ScenarioMore.offline_client
                Scenario.creator_client (Scenario.spam_at 120) (Scenario.fresh ∅)
                ChannelParticipantCreator ChannelParticipantCreator
                eq_refl eq_refl Hoff eq_refl eq_refl eq_refl eq_refl)
    as ((_ & Htime) & (_ & Hdis & _) & _).
  split; [exact Htime | exact Hdis].
Defined.

Lemma enable_time_recorded_same_groups (s s' : gmap string value) :
  (∀ g, detection_enabled g s' = detection_enabled g s
        ∧ enableTime g s' = enableTime g s) →
  enable_time_recorded s → enable_time_recorded s'.
Proof.
  intros Hsame Hinv g Hen. destruct (Hsame g) as [Hd Ht].
  rewrite Ht. apply Hinv. rewrite <- Hd. exact Hen.
Qed.

Lemma enable_time_recorded_flag_insert (u g : Z) (v : value) (s : gmap string value) :
  enable_time_recorded s → enable_time_recorded (<[participation_flag u g := v]> s).
Proof.
  apply enable_time_recorded_same_groups. intros g0.
  unfold detection_enabled, enableTime.
  rewrite !lookup_insert_ne by apply flag_ne_group_key. split; reflexivity.
Qed.

Lemma enable_time_recorded_flag_delete (u g : Z) (s : gmap string value) :
  enable_time_recorded s → enable_time_recorded (base.delete (participation_flag u g) s).
Proof.
  apply enable_time_recorded_same_groups. intros g0.
  unfold detection_enabled, enableTime.
  rewrite !lookup_delete_ne by apply flag_ne_group_key. split; reflexivity.
Qed.

Lemma enable_time_recorded_cleared (g : Z) (s : gmap string value) :
  enable_time_recorded s → enable_time_recorded (cleared g s).
Proof.
  intros Hinv g0 Hen. destruct (decide (g0 = g)) as [-> | Hne].
  - rewrite cleared_disabled in Hen. discriminate Hen.
  - destruct (cleared_other_group g g0 s Hne) as (Hd & Ht & _).
    rewrite Ht. apply Hinv. rewrite <- Hd. exact Hen.
Qed.

Lemma enable_time_recorded_toggle_on (g now : Z) (s : gmap string value) :
  enable_time_recorded s →
  enable_time_recorded
    (<["groups." +:+ PyStr.of_int g +:+ ".enable_time" := VInt now]>
       (<["groups." +:+ PyStr.of_int g +:+ ".enabled" := VBool true]> s)).
Proof.
  intros Hinv g0 Hen. destruct (decide (g0 = g)) as [-> | Hne].
  - rewrite (proj2 (enabled_after_toggle_on g now s)). eexists. reflexivity.
  - destruct (other_group_after_toggle_on g g0 now s Hne) as [Hd Ht].
    rewrite Ht. apply Hinv. rewrite <- Hd. exact Hen.
Qed.

(** X20: every handler keeps the invariant of the group state: if each
    group with detection enabled has a numeric enable time before
    [on_message], [on_chat_action] or [cmd_antibot] runs, the same holds
    of the store it leaves, whatever its outcome. *)
Theorem handlers_keep_enable_time (c : client) (w : world) :
  enable_time_recorded (store w) →
  (∀ msg, enable_time_recorded (store (on_message c msg w).2))
  ∧ (∀ action, enable_time_recorded (store (on_chat_action c action w).2))
  ∧ (∀ msg, enable_time_recorded (store (cmd_antibot c msg w).2)).
Proof.
  intros Hinv. split; [|split].
  - intros msg. rewrite on_message_run.
    destruct (is_group msg && detection_enabled (chat_id msg) (store w)); [|exact Hinv].
    destruct ((msg_is_suspicious c msg w).1) as [[]|e]; cbn [snd store].
    + exact Hinv.
    + apply enable_time_recorded_flag_insert, Hinv.
    + exact Hinv.
  - intros action. rewrite on_chat_action_run. cbv zeta.
    destruct (user_left action
              && (action_is_group action
                  && detection_enabled (action_chat_id action) (store w))).
    + destruct (bool_decide _).
      * rewrite clear_group_run. cbn [snd store].
        apply enable_time_recorded_cleared, enable_time_recorded_flag_delete, Hinv.
      * cbn [snd store after_leave].
        apply enable_time_recorded_flag_delete, Hinv.
    + destruct (negb (user_added action) && negb (user_joined action)); [exact Hinv|].
      destruct (negb _); [exact Hinv|].
      destruct (user_is_suspicious_world c (action_user action) w) as (Hs & _).
      destruct (user_is_suspicious c (action_user action) w) as [[[]|e] w'];
        cbn [snd store after_take_action] in *; rewrite Hs; exact Hinv.
  - intros msg.
    destruct (is_group msg) eqn:Hgroup;
      [|rewrite (proj1 (cmd_antibot_wrong_chat_run c msg w) Hgroup); exact Hinv].
    destruct (is_channel msg) eqn:Hchannel;
      [|rewrite (proj2 (cmd_antibot_wrong_chat_run c msg w) Hgroup Hchannel); exact Hinv].
    destruct (detection_enabled (chat_id msg) (store w)) eqn:Hen.
    + rewrite (cmd_antibot_toggle_off_run c msg w Hgroup Hchannel Hen). cbn [snd store].
      apply enable_time_recorded_cleared, Hinv.
    + rewrite (cmd_antibot_toggle_on_run c msg w Hgroup Hchannel Hen).
      destruct (GetParticipantRequest c (chat_id msg) (uid c)) as [ptcp|e]; [|exact Hinv].
      destruct (missing_permissions ptcp); [exact Hinv|]. cbn [snd store].
      apply enable_time_recorded_toggle_on, Hinv.
Qed.

Lemma handlers_keep_enable_time_witness :
  enable_time_recorded
    (store (cmd_antibot Scenario.creator_client (Scenario.spam_at 120) (Scenario.fresh ∅)).2).
Proof.
  apply (handlers_keep_enable_time Scenario.creator_client (Scenario.fresh ∅)).
  intros g Hen. vm_compute in Hen. discriminate Hen.
Defined.

(** ** The migration of [on_load] *)

Example replace_examples :
  PyStr.replace "5.enabled" ".enabled" ".enable_time" = "5.enable_time"
  ∧ PyStr.replace "a.b.a.b" ".b" "-" = "a-.a-"
  ∧ PyStr.replace "aaa" "aa" "b" = "ba"
  ∧ PyStr.replace "abc" "" "-" = "-a-b-c-"
  ∧ PyStr.replace "" "" "-" = "-"
  ∧ PyStr.replace "abc" "x" "y" = "abc".
Proof. repeat split; vm_compute; reflexivity. Qed.

Example on_load_example :
  on_load (Scenario.fresh ScenarioLegacy.legacy_store)
  = (Returns tt,
     mkWorld (<["groups.5.enable_time" := VInt 77]>
                (<["groups.5.enabled" := VBool true]>
                   (<["groups.6.enabled" := VBool false]>
                      (<["users.7.has_spoken_in_5" := VBool true]> ∅))))
             [Put "groups.5.enable_time" (VInt 77); Delete "first_msg_start_time"]
             [(Info, "Migrating message tracking start times to the new per-group format")]
             []).
Proof. vm_compute. reflexivity. Qed.

Section ReplaceFacts.

Lemma startswith_refl (s : string) : PyStr.startswith s s = true.
Proof. rewrite <- (append_nil_r s) at 1. apply startswith_app. Qed.

(** An occurrence of a dotless pattern cannot reach the separator. *)
Lemma match_inside (p a x t : string) :
  dotless p = true →
  a +:+ "." +:+ x = p +:+ t →
  (String.length p ≤ String.length a)%nat.
Proof.
  revert a. induction p as [|ch p IH]; intros a Hp Heq; [cbn; lia|].
  cbn [dotless] in Hp. apply andb_prop in Hp as [Hch Hp].
  destruct a as [|c a].
  - change ("" +:+ "." +:+ x) with (String "." x) in Heq.
    rewrite append_cons in Heq. injection Heq as Hc _. subst ch. discriminate Hch.
  - rewrite !append_cons in Heq. injection Heq as _ Heq.
    specialize (IH a Hp Heq). cbn [String.length]. lia.
Qed.

Lemma replace_from_skip_all (s old new : string) (k : nat) :
  (String.length s ≤ k)%nat → PyStr.replace_from k s old new = "".
Proof.
  revert k. induction s as [|ch s IH]; intros k Hk; [reflexivity|].
  cbn [String.length] in Hk. destruct k as [|k]; [lia|].
  cbn [PyStr.replace_from]. apply IH. lia.
Qed.

Lemma replace_from_pattern (o new : string) :
  PyStr.replace_from 0 (String "." o) (String "." o) new = new.
Proof.
  cbn [PyStr.replace_from]. rewrite startswith_refl.
  replace (String.length (String "." o) - 1)%nat with (String.length o)
    by (cbn [String.length]; lia).
  rewrite replace_from_skip_all by lia. apply append_nil_r.
Qed.

(** A key that ends with the pattern ends with the replacement after
    [replace]: the last occurrence is always found. *)
Lemma replace_from_ends (o new : string) :
  dotless o = true →
  ∀ (a : string) (skip : nat), (skip ≤ String.length a)%nat →
    ∃ r, PyStr.replace_from skip (a +:+ String "." o) (String "." o) new = r +:+ new.
Proof.
  intros Ho. induction a as [|ch a IH]; intros skip Hskip.
  - cbn [String.length] in Hskip. replace skip with 0%nat by lia.
    change ("" +:+ String "." o) with (String "." o).
    exists "". rewrite replace_from_pattern. reflexivity.
  - rewrite append_cons. destruct skip as [|k].
    + cbn [PyStr.replace_from].
      destruct (PyStr.startswith (String ch (a +:+ String "." o)) (String "." o)) eqn:Hpre.
      * replace (String.length (String "." o) - 1)%nat with (String.length o)
          by (cbn [String.length]; lia).
        assert (Hlen : (String.length o ≤ String.length a)%nat).
        { apply startswith_iff in Hpre as [t Ht].
          rewrite append_cons in Ht. injection Ht as _ Ht.
          apply (match_inside o a o t Ho). exact Ht. }
        destruct (IH (String.length o) Hlen) as [r Hr].
        exists (new +:+ r). rewrite Hr, append_assoc. reflexivity.
      * destruct (IH 0%nat ltac:(lia)) as [r Hr].
        exists (String ch r). rewrite Hr. reflexivity.
    + cbn [PyStr.replace_from]. cbn [String.length] in Hskip.
      apply IH. lia.
Qed.

(** On a dotless stem, [replace] only exchanges the suffix. *)
Lemma replace_from_dotless_stem (a o new : string) :
  dotless a = true →
  PyStr.replace_from 0 (a +:+ String "." o) (String "." o) new = a +:+ new.
Proof.
  induction a as [|ch a IH]; intros Ha.
  - apply replace_from_pattern.
  - cbn [dotless] in Ha. apply andb_prop in Ha as [Hch Ha].
    rewrite !append_cons. cbn [PyStr.replace_from PyStr.startswith].
    rewrite Ascii.eqb_sym. destruct (Ascii.eqb ch "."); [discriminate Hch|].
    rewrite (IH Ha). reflexivity.
Qed.

Lemma last_char_app (r t : string) :
  t ≠ "" → last_char (r +:+ t) = last_char t.
Proof.
  intros Ht. induction r as [|ch r IH]; [reflexivity|].
  rewrite append_cons. cbn [last_char].
  destruct (r +:+ t) as [|c rt] eqn:Hrt; [|exact IH].
  destruct r; [|discriminate Hrt]. contradiction.
Qed.

Lemma replace_enabled_ends (k : string) :
  PyStr.endswith k ".enabled" = true →
  ∃ r, PyStr.replace k ".enabled" ".enable_time" = r +:+ ".enable_time".
Proof.
  intros Hk. apply endswith_iff in Hk as [a ->].
  apply (replace_from_ends "enabled" ".enable_time" eq_refl a 0%nat). lia.
Qed.

Lemma replace_enabled_of_int (g : Z) :
  PyStr.replace (PyStr.of_int g +:+ ".enabled") ".enabled" ".enable_time"
  = PyStr.of_int g +:+ ".enable_time".
Proof. apply (replace_from_dotless_stem (PyStr.of_int g) "enabled"), of_int_dotless. Qed.

End ReplaceFacts.

Section Migration.

Lemma put_keys_lookup_Some (v : value) (ks : list string) (s : gmap string value) (r : string) :
  s !! r = Some v → put_keys v ks s !! r = Some v.
Proof.
  revert s. induction ks as [|k ks IH]; intros s Hs; [exact Hs|].
  cbn [put_keys foldl]. apply IH. rewrite lookup_insert. case_decide; [reflexivity | exact Hs].
Qed.

Lemma put_keys_lookup_in (v : value) (ks : list string) (s : gmap string value) (r : string) :
  r ∈ ks → put_keys v ks s !! r = Some v.
Proof.
  revert s. induction ks as [|k ks IH]; intros s Hin.
  - inversion Hin.
  - cbn [put_keys foldl]. apply elem_of_cons in Hin as [-> | Hin].
    + apply put_keys_lookup_Some, lookup_insert_eq.
    + apply IH, Hin.
Qed.

Lemma put_keys_lookup_notin (v : value) (ks : list string) (s : gmap string value)
    (r : string) :
  r ∉ ks → put_keys v ks s !! r = s !! r.
Proof.
  revert s. induction ks as [|k ks IH]; intros s Hnotin; [reflexivity|].
  apply not_elem_of_cons in Hnotin as [Hne Hnotin].
  cbn [put_keys foldl]. fold (put_keys v ks (<[k:=v]> s)).
  rewrite (IH _ Hnotin). apply lookup_insert_ne. congruence.
Qed.

Lemma for_each_put_run (view : string) (cond : string * value → bool) (f : string → string)
    (v : value) (kvs : list (string * value)) (w : world) :
  for_each kvs (λ kv, if cond kv then db_put view (f kv.1) v else mret tt) w
  = (Returns tt,
     mkWorld
       (put_keys v (omap (λ kv, if cond kv then Some (view +:+ f kv.1) else None) kvs)
                 (store w))
       (writes w
        ++ map (λ k, Put k v)
               (omap (λ kv, if cond kv then Some (view +:+ f kv.1) else None) kvs))
       (log w) (calls w)).
Proof.
  revert w. induction kvs as [|kv kvs IH]; intros w.
  - destruct w. cbn. rewrite app_nil_r. reflexivity.
  - cbn [for_each]. rewrite run_bind. cbn [omap list_omap].
    destruct (cond kv).
    + unfold db_put at 1. rewrite IH. cbn [store writes log calls map put_keys foldl].
      rewrite <- app_assoc. reflexivity.
    + rewrite run_ret, IH. reflexivity.
Qed.

Lemma on_load_run (w : world) :
  on_load w =
  match legacy_start_time (store w) with
  | None => (Returns tt, w)
  | Some v => (Returns tt, migrated v w)
  end.
Proof.
  unfold on_load, legacy_start_time. rewrite run_bind.
  unfold db_get at 1, DB.get, db.
  change ("" +:+ "first_msg_start_time") with "first_msg_start_time".
  assert (Hrun : ∀ v,
    (log_msg Info "Migrating message tracking start times to the new per-group format";;
     kvs ← db_iterator group_db "";
     for_each kvs (λ kv,
       if PyStr.endswith kv.1 ".enabled" && truthy kv.2
       then db_put group_db (PyStr.replace kv.1 ".enabled" ".enable_time") v
       else mret tt);;
     db_delete "" "first_msg_start_time") w
    = (Returns tt, migrated v w)).
  { intros v. rewrite run_bind. unfold log_msg at 1. cbv beta iota.
    rewrite run_bind. unfold db_iterator at 1. cbv beta iota.
    rewrite run_bind.
    rewrite (for_each_put_run group_db
               (λ kv, PyStr.endswith kv.1 ".enabled" && truthy kv.2)
               (λ k, PyStr.replace k ".enabled" ".enable_time")).
    unfold db_delete, DB.delete, migrated, migration_keys.
    cbn [store writes log calls].
    change ("" +:+ "first_msg_start_time") with "first_msg_start_time".
    rewrite <- app_assoc. reflexivity. }
  destruct (store w !! "first_msg_start_time") as [[]|]; cbn [is_not_none];
    try reflexivity; apply Hrun.
Qed.

Lemma migration_keys_shape (s : gmap string value) (r : string) :
  r ∈ migration_keys s → ∃ x, r = "groups." +:+ x +:+ ".enable_time".
Proof.
  unfold migration_keys. intros Hin.
  apply list_elem_of_omap in Hin as ([k v] & _ & Hsel). cbn [fst snd] in Hsel.
  destruct (PyStr.endswith k ".enabled") eqn:Hk; [|discriminate Hsel].
  destruct (truthy v); [|discriminate Hsel]. cbn [andb] in Hsel.
  injection Hsel as <-.
  destruct (replace_enabled_ends k Hk) as [x Hx]. exists x. rewrite <- Hx. reflexivity.
Qed.

Lemma enabled_key_not_migrated (g : Z) (s : gmap string value) :
  "groups." +:+ PyStr.of_int g +:+ ".enabled" ∉ migration_keys s.
Proof.
  intros Hin. apply migration_keys_shape in Hin as [x Hx].
  apply append_inj_l in Hx.
  assert (Hlast : last_char (PyStr.of_int g +:+ ".enabled")
                  = last_char (x +:+ ".enable_time")) by (rewrite Hx; reflexivity).
  rewrite !last_char_app in Hlast by discriminate. discriminate Hlast.
Qed.

Lemma flag_not_migrated (u g : Z) (s : gmap string value) :
  participation_flag u g ∉ migration_keys s.
Proof.
  intros Hin. apply migration_keys_shape in Hin as [x Hx].
  exact (flag_ne_group_key u g _ Hx).
Qed.

Lemma legacy_key_not_migrated (s : gmap string value) :
  "first_msg_start_time" ∉ migration_keys s.
Proof.
  intros Hin. apply migration_keys_shape in Hin as [x Hx].
  cbv [String.append] in Hx. discriminate Hx.
Qed.

Lemma enable_time_key_migrated (g : Z) (s : gmap string value) :
  detection_enabled g s = true →
  "groups." +:+ PyStr.of_int g +:+ ".enable_time" ∈ migration_keys s.
Proof.
  unfold detection_enabled. intros Hen.
  destruct (s !! ("groups." +:+ PyStr.of_int g +:+ ".enabled")) as [v|] eqn:Hs;
    [|discriminate Hen].
  unfold migration_keys. apply list_elem_of_omap.
  exists (PyStr.of_int g +:+ ".enabled", v). split.
  - apply iterator_elem; [exact Hs | apply startswith_empty].
  - cbn [fst snd]. rewrite endswith_app, Hen. cbn [andb].
    rewrite replace_enabled_of_int. reflexivity.
Qed.

Lemma group_key_ne_legacy (k : string) : "groups." +:+ k ≠ "first_msg_start_time".
Proof. intros H. cbv [String.append] in H. discriminate H. Qed.

Lemma migrated_lookup (v : value) (w : world) (r : string) :
  r ≠ "first_msg_start_time" →
  store (migrated v w) !! r
  = if bool_decide (r ∈ migration_keys (store w)) then Some v else store w !! r.
Proof.
  intros Hne. unfold migrated. cbn [store].
  rewrite lookup_delete_ne by congruence.
  case_bool_decide as Hin.
  - apply put_keys_lookup_in, Hin.
  - apply put_keys_lookup_notin, Hin.
Qed.

End Migration.

(** X21: when the store holds a legacy tracking start time, [on_load]
    returns after removing it and writing it as enable time of every
    group whose enabled flag is true; the enabled flags and the
    participation flags keep their values, and when the legacy value is a
    number, every group with detection enabled has a numeric enable time
    afterwards. *)
Theorem on_load_migrates (w : world) (v : value) :
  legacy_start_time (store w) = Some v →
  (on_load w).1 = Returns tt
  ∧ store (on_load w).2 !! "first_msg_start_time" = None
  ∧ (∀ g, detection_enabled g (store w) = true →
          store (on_load w).2 !! ("groups." +:+ PyStr.of_int g +:+ ".enable_time") = Some v)
  ∧ (∀ g, detection_enabled g (store (on_load w).2) = detection_enabled g (store w))
  ∧ (∀ u g, store (on_load w).2 !! participation_flag u g
            = store w !! participation_flag u g)
  ∧ (∀ n, as_number v = Some n → enable_time_recorded (store (on_load w).2)).
Proof.
  intros Hlegacy. rewrite on_load_run, Hlegacy. cbn [fst snd].
  assert (Htime : ∀ g, detection_enabled g (store w) = true →
    store (migrated v w) !! ("groups." +:+ PyStr.of_int g +:+ ".enable_time") = Some v).
  { intros g Hen. rewrite migrated_lookup by apply group_key_ne_legacy.
    rewrite bool_decide_eq_true_2 by (apply enable_time_key_migrated, Hen). reflexivity. }
  assert (Hen : ∀ g, detection_enabled g (store (migrated v w))
                     = detection_enabled g (store w)).
  { intros g. unfold detection_enabled.
    rewrite migrated_lookup by apply group_key_ne_legacy.
    rewrite bool_decide_eq_false_2 by apply enabled_key_not_migrated. reflexivity. }
  split; [reflexivity|]. split; [|split; [exact Htime|split; [exact Hen|split]]].
  - unfold migrated. cbn [store]. apply lookup_delete_eq.
  - intros u g. rewrite migrated_lookup.
    + rewrite bool_decide_eq_false_2 by apply flag_not_migrated. reflexivity.
    + unfold participation_flag. intros H. cbv [String.append] in H. discriminate H.
  - intros n Hn g Hg. rewrite Hen in Hg.
    unfold enableTime. rewrite (Htime g Hg). cbn. rewrite Hn. eexists. reflexivity.
Qed.

Lemma on_load_migrates_witness :
  store (on_load (Scenario.fresh ScenarioLegacy.legacy_store)).2 !! "first_msg_start_time"
  = None
  ∧ store (on_load (Scenario.fresh ScenarioLegacy.legacy_store)).2
      !! ("groups." +:+ PyStr.of_int 5 +:+ ".enable_time") = Some (VInt 77)
  ∧ detection_enabled 6 (store (on_load (Scenario.fresh ScenarioLegacy.legacy_store)).2)
    = false.
Proof.
  destruct (on_load_migrates (Scenario.fresh ScenarioLegacy.legacy_store) (VInt 77))
    as (_ & Hgone & Htime & Hen & _).
  - vm_compute. reflexivity.
  - split; [exact Hgone|]. split.
    + apply Htime. vm_compute. reflexivity.
    + rewrite Hen. vm_compute. reflexivity.
Defined.

(** X22: without a legacy tracking start time (the key is absent, or
    holds [None]) [on_load] changes nothing; and since a migration removes
    the legacy key, running [on_load] a second time changes nothing
    either. *)
Theorem on_load_idempotent (w : world) :
  (legacy_start_time (store w) = None → on_load w = (Returns tt, w))
  ∧ on_load (on_load w).2 = (Returns tt, (on_load w).2).
Proof.
  assert (Hnone : ∀ w0, legacy_start_time (store w0) = None → on_load w0 = (Returns tt, w0)).
  { intros w0 H0. rewrite on_load_run, H0. reflexivity. }
  split; [apply Hnone|]. apply Hnone.
  rewrite on_load_run.
  destruct (legacy_start_time (store w)) as [v|] eqn:Hlegacy; cbn [snd].
  - unfold legacy_start_time, migrated. cbn [store]. rewrite lookup_delete_eq. reflexivity.
  - exact Hlegacy.
Qed.

Lemma on_load_idempotent_witness :
  on_load (Scenario.fresh Scenario.enabled_store)
  = (Returns tt, Scenario.fresh Scenario.enabled_store).
Proof.
  destruct (on_load_idempotent (Scenario.fresh Scenario.enabled_store)) as [Hnone _].
  apply Hnone. vm_compute. reflexivity.
Defined.

(** ** The content heuristics *)

Section Content.

Lemma contains_unfold (hay needle : string) :
  PyStr.contains hay needle =
  if PyStr.startswith hay needle then true
  else match hay with
       | EmptyString => false
       | String _ hay' => PyStr.contains hay' needle
       end.
Proof. destruct hay; reflexivity. Qed.

Lemma contains_iff (hay needle : string) :
  PyStr.contains hay needle = true ↔ ∃ a b, hay = a +:+ needle +:+ b.
Proof.
  split.
  - induction hay as [|ch hay IH]; rewrite contains_unfold.
    + destruct (PyStr.startswith "" needle) eqn:Hpre; [|discriminate].
      intros _. apply startswith_iff in Hpre as [t Ht]. exists "", t. exact Ht.
    + destruct (PyStr.startswith (String ch hay) needle) eqn:Hpre.
      * intros _. apply startswith_iff in Hpre as [t Ht]. exists "", t. exact Ht.
      * intros Hin. destruct (IH Hin) as (a & b & ->). exists (String ch a), b. reflexivity.
  - intros (a & b & ->). induction a as [|ch a IH]; rewrite contains_unfold.
    + change ("" +:+ needle +:+ b) with (needle +:+ b).
      rewrite startswith_app. reflexivity.
    + rewrite append_cons. rewrite IH. destruct (PyStr.startswith _ _); reflexivity.
Qed.

Lemma lower_app (a b : string) : PyStr.lower (a +:+ b) = PyStr.lower a +:+ PyStr.lower b.
Proof.
  induction a as [|ch a IH]; [reflexivity|].
  rewrite append_cons. cbn [PyStr.lower]. rewrite IH. reflexivity.
Qed.

Lemma list_in_iff {A : Type} `{EqDecision A} (x : A) (xs : list A) :
  list_in x xs = true ↔ In x xs.
Proof.
  unfold list_in. rewrite existsb_exists. split.
  - intros (y & Hin & Hy). apply bool_decide_eq_true_1 in Hy. subst y. exact Hin.
  - intros Hin. exists x. split; [exact Hin | apply bool_decide_eq_true_2; reflexivity].
Qed.

Lemma keyword_nonempty (kw : string) : In kw suspicious_keywords → kw ≠ "".
Proof.
  unfold suspicious_keywords. cbn [In].
  intros H Hkw. subst kw. repeat (destruct H as [H|H]; [discriminate H|]). exact H.
Qed.

Lemma msg_has_suspicious_keyword_run (msg : message) :
  msg_has_suspicious_keyword msg =
  match raw_text msg with
  | None => false
  | Some text => existsb (λ kw, PyStr.contains (PyStr.lower text) kw) suspicious_keywords
  end.
Proof.
  unfold msg_has_suspicious_keyword.
  destruct (raw_text msg) as [[|ch text]|]; reflexivity.
Qed.

End Content.

(** X23: a message has a suspicious entity exactly when its entity list
    is present and holds a URL, text-URL, e-mail or phone entity; a
    message without entity list, or with an empty one, has none. *)
Theorem msg_has_suspicious_entity_iff (msg : message) :
  (msg_has_suspicious_entity msg = true ↔
   ∃ es e, entities msg = Some es ∧ In e es
           ∧ (e = MessageEntityUrl ∨ e = MessageEntityTextUrl
              ∨ e = MessageEntityEmail ∨ e = MessageEntityPhone))
  ∧ (entities msg = None ∨ entities msg = Some [] → msg_has_suspicious_entity msg = false).
Proof.
  assert (Hrun : msg_has_suspicious_entity msg =
    match entities msg with
    | None => false
    | Some es => existsb (λ e, list_in e suspicious_entities) es
    end).
  { unfold msg_has_suspicious_entity. destruct (entities msg) as [[|e es]|]; reflexivity. }
  rewrite Hrun. split.
  - destruct (entities msg) as [es|].
    + rewrite existsb_exists. split.
      * intros (e & Hin & He). exists es, e. split; [reflexivity|]. split; [exact Hin|].
        apply list_in_iff in He. cbn [suspicious_entities In] in He.
        destruct He as [<- | [<- | [<- | [<- | []]]]]; auto.
      * intros (es' & e & Hes & Hin & He). injection Hes as <-.
        exists e. split; [exact Hin|]. apply list_in_iff.
        cbn [suspicious_entities In]. destruct He as [-> | [-> | [-> | ->]]]; auto.
    + split; [discriminate|]. intros (es & e & Hes & _). discriminate Hes.
  - intros [-> | ->]; reflexivity.
Qed.

Lemma msg_has_suspicious_entity_iff_witness :
  msg_has_suspicious_entity
    (mkMessage false (Some 140) false false None
               (Some [MessageEntityBold; MessageEntityEmail]) 7 5 true true) = true
  ∧ msg_has_suspicious_entity
      (mkMessage false (Some 140) false false None (Some []) 7 5 true true) = false.
Proof.
  split.
  - apply (msg_has_suspicious_entity_iff
             (mkMessage false (Some 140) false false None
                        (Some [MessageEntityBold; MessageEntityEmail]) 7 5 true true)).
    exists [MessageEntityBold; MessageEntityEmail], MessageEntityEmail.
    split; [reflexivity|]. split; [right; left; reflexivity|]. auto.
  - apply (msg_has_suspicious_entity_iff
             (mkMessage false (Some 140) false false None (Some []) 7 5 true true)).
    right. reflexivity.
Defined.

(** X24: a message has a suspicious keyword exactly when its text is
    present and the lower-cased text contains one of the listed keywords;
    so a keyword written in any mix of upper and lower case, anywhere in
    the text, is found. *)
Theorem msg_has_suspicious_keyword_iff (msg : message) :
  (msg_has_suspicious_keyword msg = true ↔
   ∃ text kw a b, raw_text msg = Some text ∧ In kw suspicious_keywords
                  ∧ PyStr.lower text = a +:+ kw +:+ b)
  ∧ (∀ a k b, raw_text msg = Some (a +:+ k +:+ b) →
              In (PyStr.lower k) suspicious_keywords →
              msg_has_suspicious_keyword msg = true).
Proof.
  rewrite msg_has_suspicious_keyword_run.
  assert (Hiff : (match raw_text msg with
                  | None => false
                  | Some text =>
                      existsb (λ kw, PyStr.contains (PyStr.lower text) kw)
                              suspicious_keywords
                  end = true) ↔
                 ∃ text kw a b, raw_text msg = Some text ∧ In kw suspicious_keywords
                                ∧ PyStr.lower text = a +:+ kw +:+ b).
  { destruct (raw_text msg) as [text|].
    - rewrite existsb_exists. split.
      + intros (kw & Hin & Hc). apply contains_iff in Hc as (a & b & Hab).
        exists text, kw, a, b. split; [reflexivity|]. split; assumption.
      + intros (text' & kw & a & b & Ht & Hin & Hab). injection Ht as <-.
        exists kw. split; [exact Hin|]. apply contains_iff. exists a, b. exact Hab.
    - split; [discriminate|]. intros (text & kw & a & b & Ht & _). discriminate Ht. }
  split; [exact Hiff|].
  intros a k b Ht Hin. apply Hiff.
  exists (a +:+ k +:+ b), (PyStr.lower k), (PyStr.lower a), (PyStr.lower b).
  split; [exact Ht|]. split; [exact Hin|]. rewrite !lower_app. reflexivity.
Qed.

Lemma msg_has_suspicious_keyword_iff_witness :
  msg_has_suspicious_keyword
    (mkMessage false (Some 140) false false (Some ("Join " +:+ "BitCoin" +:+ " today"))
               None 7 5 true true) = true.
Proof.
  destruct (msg_has_suspicious_keyword_iff
              (mkMessage false (Some 140) false false
                         (Some ("Join " +:+ "BitCoin" +:+ " today")) None 7 5 true true))
    as [_ Hany].
  apply (Hany "Join " "BitCoin" " today").
  - reflexivity.
  - vm_compute. auto 10.
Defined.

(** X25: for a user who passes the username gate and has neither avatar
    nor bio, the verdict of [profile_check_nonsense] is the answer of the
    pronounceability test, and nothing is logged. *)
Theorem profile_check_nonsense_follows_test
    (c : client) (u : user) (w : world) (name : string) (about : option string) (b : bool) :
  username u = Some name →
  username_gate name = true →
  user_photo u = false →
  GetFullUserRequest c u = Returns about →
  has_bio about = false →
  nonsense c name = Nonsense b →
  profile_check_nonsense c u w = (Returns b, w).
Proof.
  intros Hname Hgate Hphoto Hfull Hbio Htest.
  rewrite profile_check_nonsense_unfold, Hname, Hgate, Hphoto, Hfull, Hbio, Htest.
  reflexivity.
Qed.

Lemma profile_check_nonsense_follows_test_witness :
  profile_check_nonsense Scenario.member_client ScenarioUsers.nameless (Scenario.fresh ∅)
  = (Returns true, Scenario.fresh ∅).
Proof.
  apply (profile_check_nonsense_follows_test Scenario.member_client ScenarioUsers.nameless
           (Scenario.fresh ∅) "Xkqzpvbtab" None true); vm_compute; reflexivity.
Defined.
